(** * Provider resilience and streaming layer of the PAL MCP server

    A shallow embedding of [providers/openai_compatible.py] and
    [providers/openrouter.py]: usage normalisation, the first-activity
    timeout, the two SSE aggregation loops, error retryability, the retry
    call sites, the alias-aware allow-list and the catalogue cache.

    Conventions.
    - Python [str] is modelled by [string] (a sequence of 8-bit characters);
      [lower]/[upper]/[strip] act on the ASCII range.
    - Values decoded by [json.loads] (and the literals read by
      [ast.literal_eval]) are [pyobj]; a [dict] is an association list whose
      first binding of a key is the live one.
    - A Python function that may raise returns [result]; [Raise e] carries
      the exception.
    - Wall-clock time ([time.time], [time.monotonic]) is a rational number
      of seconds. *)

From Stdlib Require Import ZArith String Ascii List Bool QArith Lqa Lia Floats.
From stdpp Require Import base option list gmap strings sorting pretty.

#[local] Set Warnings "-register-all,-inexact-float".

Set Default Proof Using "Type".
Local Open Scope Z_scope.

(** ** Python string operations *)

Module PyStr.

(** [str.isspace] on one ASCII character: TAB..CR, FS..US and space. *)
Definition isspace (c : ascii) : bool :=
  let n := nat_of_ascii c in
  (Nat.leb 9 n && Nat.leb n 13) || (Nat.leb 28 n && Nat.leb n 32).

Fixpoint lstrip (s : string) : string :=
  match s with
  | EmptyString => EmptyString
  | String c s' => if isspace c then lstrip s' else s
  end.

Fixpoint rstrip (s : string) : string :=
  match s with
  | EmptyString => EmptyString
  | String c s' =>
      match rstrip s' with
      | EmptyString => if isspace c then EmptyString else String c EmptyString
      | r => String c r
      end
  end.

(** [s.strip()] *)
Definition strip (s : string) : string := rstrip (lstrip s).

(** [s.startswith(p)] *)
Fixpoint startswith (p s : string) : bool :=
  match p, s with
  | EmptyString, _ => true
  | String _ _, EmptyString => false
  | String a p', String b s' => Ascii.eqb a b && startswith p' s'
  end.

(** [sub in s] *)
Fixpoint contains (sub s : string) : bool :=
  startswith sub s ||
  match s with
  | EmptyString => false
  | String _ s' => contains sub s'
  end.

(** [s[n:]] *)
Fixpoint drop (n : nat) (s : string) : string :=
  match n, s with
  | O, _ => s
  | S _, EmptyString => EmptyString
  | S n', String _ s' => drop n' s'
  end.

(** [s[:n]] *)
Definition take (n : nat) (s : string) : string := String.substring 0 n s.

Fixpoint map_chars (f : ascii -> ascii) (s : string) : string :=
  match s with
  | EmptyString => EmptyString
  | String c s' => String (f c) (map_chars f s')
  end.

Definition lower_char (c : ascii) : ascii :=
  let n := nat_of_ascii c in
  if Nat.leb 65 n && Nat.leb n 90 then ascii_of_nat (n + 32) else c.

Definition upper_char (c : ascii) : ascii :=
  let n := nat_of_ascii c in
  if Nat.leb 97 n && Nat.leb n 122 then ascii_of_nat (n - 32) else c.

Definition lower : string -> string := map_chars lower_char.
Definition upper : string -> string := map_chars upper_char.

(** [s.replace(a, b)] for one-character [a] and [b]. *)
Definition replace_char (a b : ascii) : string -> string :=
  map_chars (fun c => if Ascii.eqb c a then b else c).

(** The text before the last [sep] of [s], if [sep] occurs. *)
Fixpoint before_last (sep : ascii) (s : string) : option string :=
  match s with
  | EmptyString => None
  | String c s' =>
      match before_last sep s' with
      | Some h => Some (String c h)
      | None => if Ascii.eqb c sep then Some EmptyString else None
      end
  end.

(** [s.rsplit(sep, 1)[0]] *)
Definition rsplit1_head (sep : ascii) (s : string) : string :=
  match before_last sep s with
  | Some h => h
  | None => s
  end.

(** ["".join(parts)] *)
Definition join (parts : list string) : string := String.concat "" parts.

Definition is_empty (s : string) : bool :=
  match s with EmptyString => true | _ => false end.

(** [s.lstrip(c)] for a one-character [c]. *)
Fixpoint lstrip_char (c : ascii) (s : string) : string :=
  match s with
  | EmptyString => EmptyString
  | String a s' => if Ascii.eqb a c then lstrip_char c s' else s
  end.

(** [s.rstrip(c)] for a one-character [c]. *)
Fixpoint rstrip_char (c : ascii) (s : string) : string :=
  match s with
  | EmptyString => EmptyString
  | String a s' =>
      match rstrip_char c s' with
      | EmptyString => if Ascii.eqb a c then EmptyString else String a EmptyString
      | r => String a r
      end
  end.

(** [s.split(sep)] for a one-character [sep]: never an empty list. *)
Fixpoint split (sep : ascii) (s : string) : list string :=
  match s with
  | EmptyString => [EmptyString]
  | String a s' =>
      if Ascii.eqb a sep then EmptyString :: split sep s'
      else
        match split sep s' with
        | l :: ls => String a l :: ls
        | [] => [String a EmptyString]
        end
  end.

End PyStr.

(** ** Python number parsing: [int(str)] and [float(str)] *)

Module PyNum.

Definition is_digit (c : ascii) : bool :=
  let n := nat_of_ascii c in Nat.leb 48 n && Nat.leb n 57.

Definition digit_value (c : ascii) : Z := Z.of_nat (nat_of_ascii c) - 48.

Definition starts_with_digit (s : string) : bool :=
  match s with String c _ => is_digit c | EmptyString => false end.

(** Numeric literals may group digits with single underscores: every
    underscore must stand between two digits.  Returns the text without
    them, or [None] when one is misplaced. *)
Fixpoint remove_underscores (after_digit : bool) (s : string) : option string :=
  match s with
  | EmptyString => Some EmptyString
  | String c s' =>
      if Ascii.eqb c "_" then
        if after_digit && starts_with_digit s' then remove_underscores false s'
        else None
      else String c <$> remove_underscores (is_digit c) s'
  end.

(** The longest run of digits at the head of [s]: its value on top of
    [acc], the number of digits added to [n], and the rest. *)
Fixpoint digits (acc : Z) (n : nat) (s : string) : Z * nat * string :=
  match s with
  | EmptyString => (acc, n, s)
  | String c s' =>
      if is_digit c then digits (10 * acc + digit_value c) (S n) s'
      else (acc, n, s)
  end.

(** An optional sign: [true] for minus. *)
Definition sign (s : string) : bool * string :=
  match s with
  | String "-" s' => (true, s')
  | String "+" s' => (false, s')
  | _ => (false, s)
  end.

(** [int(s)], base 10. *)
Definition int_of_str (s : string) : option Z :=
  s ← remove_underscores false (PyStr.strip s);
  let '(neg, ds) := sign s in
  match digits 0 0 ds with
  | (n, S _, EmptyString) => Some (if neg then - n else n)
  | _ => None
  end.

(** The binary64 number nearest to [num / den] (ties to even). *)
Definition of_ratio (neg : bool) (num : Z) (den : positive) : float :=
  match num with
  | Z.pos p => SF2Prim (SFdiv prec emax (S754_finite neg p 0) (S754_finite false den 0))
  | _ => if neg then neg_zero else zero
  end.

(** The binary64 number nearest to [m * 10 ^ e]. *)
Definition of_decimal (neg : bool) (m e : Z) : float :=
  if 0 <=? e then of_ratio neg (m * 10 ^ e) 1
  else of_ratio neg m (Z.to_pos (10 ^ (- e))).

(** A decimal literal [digits? [. digits?] [(e|E) sign? digits]] with at
    least one mantissa digit: its mantissa and decimal exponent. *)
Definition decimal (s : string) : option (Z * Z) :=
  let '(i, ni, r1) := digits 0 0 s in
  let '(m, nf, r2) :=
    match r1 with
    | String "." r => digits i 0 r
    | _ => (i, 0%nat, r1)
    end in
  match (ni + nf)%nat with
  | O => None
  | S _ =>
      match r2 with
      | EmptyString => Some (m, - Z.of_nat nf)
      | String c r3 =>
          if Ascii.eqb c "e" || Ascii.eqb c "E" then
            let '(eneg, r4) := sign r3 in
            match digits 0 0 r4 with
            | (x, S _, EmptyString) =>
                Some (m, (if eneg then - x else x) - Z.of_nat nf)
            | _ => None
            end
          else None
      end
  end.

(** [float(s)]: [None] stands for [ValueError]. *)
Definition float_of_str (s : string) : option float :=
  s ← remove_underscores false (PyStr.strip s);
  let '(neg, body) := sign s in
  let word := PyStr.lower body in
  if String.eqb word "inf" || String.eqb word "infinity" then
    Some (if neg then neg_infinity else infinity)
  else if String.eqb word "nan" then Some nan
  else '(m, e) ← decimal body; Some (of_decimal neg m e).

End PyNum.

(** ** Exceptions and results *)

Inductive exn : Type :=
| RuntimeError (msg : string)
| TimeoutError (msg : string)
| ValueError (msg : string)
| TypeError (msg : string)
| AttributeError (msg : string)
| IndexError (msg : string)
| OverflowError (msg : string).

(** [str(exc)] *)
Definition exn_text (e : exn) : string :=
  match e with
  | RuntimeError msg | TimeoutError msg | ValueError msg | TypeError msg
  | AttributeError msg | IndexError msg | OverflowError msg => msg
  end.

Inductive result (A : Type) : Type :=
| Ok (a : A)
| Raise (e : exn).
Arguments Ok {A} a.
Arguments Raise {A} e.

#[global] Instance result_ret : MRet result := fun A a => Ok a.
#[global] Instance result_fmap : FMap result := fun A B f m =>
  match m with
  | Ok a => Ok (f a)
  | Raise e => Raise e
  end.
#[global] Instance result_bind : MBind result := fun A B f m =>
  match m with
  | Ok a => f a
  | Raise e => Raise e
  end.

(** ** Python values *)

Inductive pyobj : Type :=
| PNone
| PBool (b : bool)
| PInt (n : Z)
| PFloat (x : float)
| PStr (s : string)
| PList (xs : list pyobj)
| PDict (kvs : list (string * pyobj))
| PSet (xs : list pyobj).

Module Py.

Fixpoint lookup (k : string) (kvs : list (string * pyobj)) : option pyobj :=
  match kvs with
  | [] => None
  | (k', v) :: kvs' => if String.eqb k' k then Some v else lookup k kvs'
  end.

(** [d.get(k)] on the bindings of a dict: the value, or [None]. *)
Definition get (kvs : list (string * pyobj)) (k : string) : pyobj :=
  match lookup k kvs with
  | Some v => v
  | None => PNone
  end.

(** [bool(v)] *)
Definition truthy (v : pyobj) : bool :=
  match v with
  | PNone => false
  | PBool b => b
  | PInt n => negb (n =? 0)
  | PFloat x => negb (PrimFloat.eqb x 0%float)
  | PStr s => negb (PyStr.is_empty s)
  | PList xs | PSet xs => match xs with [] => false | _ => true end
  | PDict kvs => match kvs with [] => false | _ => true end
  end.

Definition is_none (v : pyobj) : bool :=
  match v with PNone => true | _ => false end.

(** [v == s] for a string constant [s]. *)
Definition eq_str (v : pyobj) (s : string) : bool :=
  match v with PStr s' => String.eqb s' s | _ => false end.

(** [int(x)] for a float: truncation toward zero. *)
Definition int_of_float (x : float) : result Z :=
  match Prim2SF x with
  | S754_zero _ => Ok 0
  | S754_infinity _ => Raise (OverflowError "cannot convert float infinity to integer")
  | S754_nan => Raise (ValueError "cannot convert float NaN to integer")
  | S754_finite s m e =>
      let mag := if 0 <=? e then Z.pos m * 2 ^ e else Z.pos m / 2 ^ (- e) in
      Ok (if s then - mag else mag)
  end.

(** [int(v)] *)
Definition int (v : pyobj) : result Z :=
  match v with
  | PInt n => Ok n
  | PBool b => Ok (if b then 1 else 0)
  | PFloat x => int_of_float x
  | PStr s =>
      match PyNum.int_of_str s with
      | Some n => Ok n
      | None => Raise (ValueError "invalid literal for int() with base 10")
      end
  | PNone | PList _ | PDict _ | PSet _ =>
      Raise (TypeError "int() argument must be a string, a bytes-like object or a real number")
  end.

(** [k in d] *)
Definition has_key (kvs : list (string * pyobj)) (k : string) : bool :=
  match lookup k kvs with Some _ => true | None => false end.

(** [d.get(k, dflt)] *)
Definition get_default (kvs : list (string * pyobj)) (k : string) (dflt : pyobj) : pyobj :=
  match lookup k kvs with
  | Some v => v
  | None => dflt
  end.

(** [d[k] = v]: the live binding of [k] takes the value; a new key goes
    last. *)
Fixpoint set (k : string) (v : pyobj) (kvs : list (string * pyobj))
    : list (string * pyobj) :=
  match kvs with
  | [] => [(k, v)]
  | (k', v') :: kvs' =>
      if String.eqb k' k then (k', v) :: kvs' else (k', v') :: set k v kvs'
  end.

(** [d.pop(k, None)], as the dict it leaves: no binding of [k] stays. *)
Definition remove (k : string) (kvs : list (string * pyobj)) : list (string * pyobj) :=
  List.filter (fun kv => negb (String.eqb kv.1 k)) kvs.

(** [len(v)]; [None] stands for the [TypeError] of a value without a
    length. *)
Definition len (v : pyobj) : option nat :=
  match v with
  | PStr s => Some (String.length s)
  | PList xs | PSet xs => Some (length xs)
  | PDict kvs => Some (length (remove_dups (map fst kvs)))
  | PNone | PBool _ | PInt _ | PFloat _ => None
  end.

End Py.

(** ** Usage normalisation: [_extract_usage_dict] *)

Record usage_counts : Type := mk_usage {
  input_tokens : Z;
  output_tokens : Z;
  total_tokens : Z;
}.

(** The local helper [_to_int]: [int(value or 0)], with [TypeError] and
    [ValueError] turned into [0]; any other exception passes through. *)
Definition _to_int (value : pyobj) : result Z :=
  match Py.int (if Py.truthy value then value else PInt 0) with
  | Ok n => Ok n
  | Raise (TypeError _) | Raise (ValueError _) => Ok 0
  | Raise e => Raise e
  end.

Definition _extract_usage_dict (usage : pyobj) : result (option usage_counts) :=
  match usage with
  | PDict d =>
      let prompt_tokens := Py.get d "prompt_tokens" in
      let completion_tokens := Py.get d "completion_tokens" in
      let total_tokens := Py.get d "total_tokens" in
      let '(prompt_tokens, completion_tokens, total_tokens) :=
        if Py.is_none prompt_tokens && Py.is_none completion_tokens
           && Py.is_none total_tokens
        then (Py.get d "input_tokens", Py.get d "output_tokens", Py.get d "total_tokens")
        else (prompt_tokens, completion_tokens, total_tokens) in
      input_tokens ← _to_int prompt_tokens;
      output_tokens ← _to_int completion_tokens;
      total_tokens_value ←
        (if Py.is_none total_tokens then Ok (input_tokens + output_tokens)
         else _to_int total_tokens);
      if (input_tokens =? 0) && (output_tokens =? 0) && (total_tokens_value =? 0)
      then Ok None
      else Ok (Some (mk_usage input_tokens output_tokens total_tokens_value))
  | _ => Ok None
  end.


(** ** The first-activity timeout: [_get_openrouter_processing_timeout_sec] *)

Definition _OPENROUTER_PROCESSING_TIMEOUT_DEFAULT_SEC : float := 15%float.

(** [env] is the value of [OPENROUTER_PROCESSING_TIMEOUT] when it is set;
    [get_env(name, "") or ""] turns an unset variable into the empty
    string. *)
Definition _get_openrouter_processing_timeout_sec (env : option string) : float :=
  let raw := PyStr.strip (default "" env) in
  if PyStr.is_empty raw then _OPENROUTER_PROCESSING_TIMEOUT_DEFAULT_SEC
  else
    match PyNum.float_of_str raw with
    | None => _OPENROUTER_PROCESSING_TIMEOUT_DEFAULT_SEC
    | Some value =>
        if PrimFloat.leb value 0%float
        then _OPENROUTER_PROCESSING_TIMEOUT_DEFAULT_SEC
        else value
    end.


(** ** Server-sent events: the streaming generation paths *)

(** [providers.shared.ProviderType]; only the tag is used here. *)
Inductive ProviderType : Type := GOOGLE | OPENAI | OPENROUTER | CUSTOM.

Record ModelResponse : Type := mk_response {
  content : string;
  usage : option usage_counts;
  model_name : string;
  friendly_name : string;
  provider : ProviderType;
  metadata : gmap string pyobj;
}.

(** The line iterator of an open stream ([response.aiter_lines()]): each
    pending line with the time, in seconds, its [__anext__] takes to deliver
    it, and the time the end of the stream takes once the lines are spent. *)
Record line_stream : Type := mk_stream {
  pending : list (Q * string);
  eof_after : Q;
}.

Record http_response : Type := mk_http {
  status_code : Z;
  body : string;
  line_iter : line_stream;
}.

(** One turn of a [for line in ...] loop body. *)
Inductive step (S : Type) : Type :=
| Continue (s : S)
| Break (s : S)
| Fail (e : exn).
Arguments Continue {S} s.
Arguments Break {S} s.
Arguments Fail {S} e.

Module SSE.

Fixpoint for_each {S : Type} (body : S -> string -> step S) (st : S)
    (lines : list string) : result S :=
  match lines with
  | [] => Ok st
  | line :: rest =>
      match body st line with
      | Continue st' => for_each body st' rest
      | Break st' => Ok st'
      | Fail e => Raise e
      end
  end.

(** The recognised first activity: a [data:] line or the OpenRouter
    keep-alive comment, both judged on the stripped line. *)
Definition is_first_activity (line : string) : bool :=
  let stripped := PyStr.strip line in
  PyStr.startswith "data:" stripped
  || (PyStr.startswith ":" stripped
      && PyStr.contains "OPENROUTER" (PyStr.upper stripped)
      && PyStr.contains "PROCESSING" (PyStr.upper stripped)).

(** The head both loops share: the payload of a [data:] line, [None] for a
    line the loops skip (empty, blank, comment, any other field). *)
Definition data_of_line (line : string) : option string :=
  if PyStr.is_empty line then None
  else
    let stripped := PyStr.strip line in
    if PyStr.is_empty stripped then None
    else if PyStr.startswith ":" stripped then None
    else if negb (PyStr.startswith "data:" stripped) then None
    else Some (PyStr.lstrip (PyStr.drop 5 stripped)).

Section Streaming.

(** [json.loads]; [None] stands for [json.JSONDecodeError]. *)
Variable json_loads : string -> option pyobj.
(** [str(v)] as an f-string renders a decoded value. *)
Variable py_str : pyobj -> string.
(** How an f-string renders the timeout, a float. *)
Variable format_seconds : Q -> string.
Variable FRIENDLY_NAME : string.
Variable provider_type : ProviderType.

Definition timed_out_message (timeout_sec : Q) : string :=
  "OpenRouter streaming timed out awaiting first activity after "
  +:+ format_seconds timeout_sec
  +:+ "s (OPENROUTER_PROCESSING_TIMEOUT=" +:+ format_seconds timeout_sec +:+ ").".

Definition ended_message (timeout_sec : Q) : string :=
  "OpenRouter streaming ended before first activity after "
  +:+ format_seconds timeout_sec
  +:+ "s (OPENROUTER_PROCESSING_TIMEOUT=" +:+ format_seconds timeout_sec +:+ ").".

(** The [while True] loop of the wait; [now] is the monotonic clock.  A
    line that needs [delay] seconds is delivered when [delay < remaining];
    otherwise [asyncio.wait_for] times out first. *)
Fixpoint wait_loop (timeout_sec deadline now : Q) (eof : Q)
    (lines : list (Q * string)) : result (string * line_stream) :=
  let remaining := (deadline - now)%Q in
  if Qle_bool remaining 0 then Raise (TimeoutError (timed_out_message timeout_sec))
  else
    match lines with
    | [] =>
        if Qle_bool remaining eof
        then Raise (TimeoutError (timed_out_message timeout_sec))
        else Raise (TimeoutError (ended_message timeout_sec))
    | (delay, line) :: rest =>
        if Qle_bool remaining delay
        then Raise (TimeoutError (timed_out_message timeout_sec))
        else if is_first_activity line then Ok (line, mk_stream rest eof)
        else wait_loop timeout_sec deadline (now + delay)%Q eof rest
    end.

Definition _wait_for_openrouter_first_activity_line (now : Q)
    (line_iter : line_stream) (timeout_sec : Q) : result (string * line_stream) :=
  let deadline := (now + timeout_sec)%Q in
  wait_loop timeout_sec deadline now (eof_after line_iter) (pending line_iter).

(** [_iter_with_first]: the captured line, then the rest of the stream. *)
Definition _iter_with_first (first : string) (line_iter : line_stream) : list string :=
  first :: map snd (pending line_iter).

Definition request_failed (response : http_response) : exn :=
  RuntimeError ("OpenRouter streaming request failed (status="
                +:+ pretty (status_code response) +:+ "): "
                +:+ PyStr.take 2000 (body response)).

(** *** Chat-completions shape *)

Record chat_state : Type := mk_chat {
  content_parts : list string;
  chat_usage : option usage_counts;
  chat_metadata : gmap string pyobj;
}.

Definition chat_init : chat_state :=
  mk_chat [] None
    (<["endpoint" := PStr "chat_completions"]> (<["streaming" := PBool true]> ∅)).

(** The body of [for choice in choices]. *)
Definition chat_choice (acc : gmap string pyobj * list string) (choice : pyobj)
    : gmap string pyobj * list string :=
  match choice with
  | PDict c =>
      let '(metadata, parts) := acc in
      let finish_reason := Py.get c "finish_reason" in
      let metadata :=
        if Py.is_none finish_reason then metadata
        else <["finish_reason" := finish_reason]> metadata in
      let parts :=
        match Py.get c "delta" with
        | PDict delta =>
            match Py.get delta "content" with
            | PStr token => if PyStr.is_empty token then parts else parts ++ [token]
            | _ => parts
            end
        | _ => parts
        end in
      (metadata, parts)
  | _ => acc
  end.

Definition chat_payload (st : chat_state) (payload : pyobj) : step chat_state :=
  match payload with
  | PDict p =>
      if Py.truthy (Py.get p "error")
      then Fail (RuntimeError ("OpenRouter streaming error: " +:+ py_str (Py.get p "error")))
      else
        let metadata := chat_metadata st in
        let metadata :=
          if Py.truthy (Py.get p "id") then <["id" := Py.get p "id"]> metadata
          else metadata in
        let metadata :=
          if Py.is_none (Py.get p "created") then metadata
          else <["created" := Py.get p "created"]> metadata in
        let metadata :=
          if Py.truthy (Py.get p "model") then <["model" := Py.get p "model"]> metadata
          else metadata in
        match _extract_usage_dict (Py.get p "usage") with
        | Raise e => Fail e
        | Ok extracted =>
            let usage := match extracted with Some _ => extracted | None => chat_usage st end in
            match Py.get p "choices" with
            | PList choices =>
                let '(metadata, parts) :=
                  fold_left chat_choice choices (metadata, content_parts st) in
                Continue (mk_chat parts usage metadata)
            | _ => Continue (mk_chat (content_parts st) usage metadata)
            end
        end
  | _ => Continue st
  end.

(** The body of [async for line in self._iter_with_first(...)]. *)
Definition chat_line (st : chat_state) (line : string) : step chat_state :=
  match data_of_line line with
  | None => Continue st
  | Some data =>
      if String.eqb data "[DONE]" then Break st
      else
        match json_loads data with
        | None =>
            Fail (RuntimeError ("OpenRouter streaming sent invalid JSON chunk: "
                                +:+ PyStr.take 2000 data))
        | Some payload => chat_payload st payload
        end
  end.

(** [_call] of [_generate_openrouter_chat_completions_streaming], from the
    moment the response headers are in; [timeout_sec] is the first-activity
    timeout the caller read beforehand and [now] the monotonic clock. *)
Definition _generate_openrouter_chat_completions_streaming
    (timeout_sec now : Q) (model_name : string) (response : http_response)
    : result ModelResponse :=
  if 400 <=? status_code response then Raise (request_failed response)
  else
    '(first_line, line_iter) ←
      _wait_for_openrouter_first_activity_line now (line_iter response) timeout_sec;
    st ← for_each chat_line chat_init (_iter_with_first first_line line_iter);
    Ok (mk_response (PyStr.join (content_parts st)) (chat_usage st) model_name
          FRIENDLY_NAME provider_type (chat_metadata st)).

(** *** Responses shape *)

Definition content_item_text (parts : list string) (content_item : pyobj) : list string :=
  match content_item with
  | PDict ci =>
      if Py.eq_str (Py.get ci "type") "output_text" then
        match Py.get ci "text" with
        | PStr text => parts ++ [text]
        | _ => parts
        end
      else parts
  | _ => parts
  end.

Definition output_item_text (parts : list string) (item : pyobj) : list string :=
  match item with
  | PDict it =>
      match Py.get it "content" with
      | PList content => fold_left content_item_text content parts
      | _ => parts
      end
  | _ => parts
  end.

Definition _extract_output_text_from_responses_payload
    (response_payload : list (string * pyobj)) : string :=
  match Py.get response_payload "output" with
  | PList output => PyStr.join (fold_left output_item_text output [])
  | _ => ""
  end.

Record responses_state : Type := mk_responses {
  completed_response : option (list (string * pyobj));
  output_parts : list string;
  responses_usage : option usage_counts;
  responses_metadata : gmap string pyobj;
}.

Definition responses_init : responses_state :=
  mk_responses None [] None
    (<["endpoint" := PStr "responses"]> (<["streaming" := PBool true]> ∅)).

(** [event_type in {"response.failed", "response.error"}]: membership in a
    set hashes [event_type], which a list or a dict does not allow. *)
Definition is_failure_type (event_type : pyobj) : result bool :=
  match event_type with
  | PStr s => Ok (String.eqb s "response.failed" || String.eqb s "response.error")
  | PList _ | PDict _ | PSet _ => Raise (TypeError "unhashable type")
  | _ => Ok false
  end.

(** The last test of the loop body, reached when the event did not
    complete the response. *)
Definition responses_tail (st : responses_state) (parts : list string)
    (usage : option usage_counts) (metadata : gmap string pyobj)
    (event_type event : pyobj) : step responses_state :=
  match is_failure_type event_type with
  | Raise e => Fail e
  | Ok true =>
      Fail (RuntimeError ("OpenRouter responses stream failed ("
                          +:+ match event_type with PStr s => s | _ => py_str event_type end
                          +:+ "): " +:+ py_str event))
  | Ok false => Continue (mk_responses (completed_response st) parts usage metadata)
  end.

Definition responses_event (st : responses_state) (event : pyobj) : step responses_state :=
  match event with
  | PDict ev =>
      if Py.truthy (Py.get ev "error")
      then Fail (RuntimeError ("OpenRouter responses stream error: "
                               +:+ py_str (Py.get ev "error")))
      else
        let event_type := Py.get ev "type" in
        let metadata := responses_metadata st in
        let metadata :=
          match event_type with
          | PStr _ => <["last_event_type" := event_type]> metadata
          | _ => metadata
          end in
        let response_obj := Py.get ev "response" in
        let updated : result (gmap string pyobj * option usage_counts) :=
          match response_obj with
          | PDict r =>
              let metadata :=
                if Py.truthy (Py.get r "id") then <["id" := Py.get r "id"]> metadata
                else metadata in
              let metadata :=
                if Py.is_none (Py.get r "created_at") then metadata
                else <["created" := Py.get r "created_at"]> metadata in
              let metadata :=
                if Py.truthy (Py.get r "model") then <["model" := Py.get r "model"]> metadata
                else metadata in
              extracted ← _extract_usage_dict (Py.get r "usage");
              Ok (metadata,
                  match extracted with Some _ => extracted | None => responses_usage st end)
          | _ => Ok (metadata, responses_usage st)
          end in
        match updated with
        | Raise e => Fail e
        | Ok (metadata, usage) =>
            let parts :=
              if Py.eq_str event_type "response.output_text.delta" then
                match Py.get ev "delta" with
                | PStr delta =>
                    if PyStr.is_empty delta then output_parts st
                    else output_parts st ++ [delta]
                | _ => output_parts st
                end
              else output_parts st in
            match response_obj with
            | PDict r =>
                if Py.eq_str event_type "response.completed"
                then Break (mk_responses (Some r) parts usage metadata)
                else responses_tail st parts usage metadata event_type event
            | _ => responses_tail st parts usage metadata event_type event
            end
        end
  | _ => Continue st
  end.

(** The body of [async for line in self._iter_with_first(...)]. *)
Definition responses_line (st : responses_state) (line : string) : step responses_state :=
  match data_of_line line with
  | None => Continue st
  | Some data =>
      if String.eqb data "[DONE]" then Break st
      else
        match json_loads data with
        | None =>
            Fail (RuntimeError ("OpenRouter responses stream sent invalid JSON event: "
                                +:+ PyStr.take 2000 data))
        | Some event => responses_event st event
        end
  end.

(** The lines after the loop: the completed response's text, or the
    accumulated deltas when that text is empty. *)
Definition responses_content (st : responses_state) : string :=
  let content :=
    match completed_response st with
    | Some r => _extract_output_text_from_responses_payload r
    | None => ""
    end in
  if PyStr.is_empty content then PyStr.join (output_parts st) else content.

(** [_call] of [_generate_openrouter_responses_streaming]. *)
Definition _generate_openrouter_responses_streaming
    (timeout_sec now : Q) (model_name : string) (response : http_response)
    : result ModelResponse :=
  if 400 <=? status_code response then Raise (request_failed response)
  else
    '(first_line, line_iter) ←
      _wait_for_openrouter_first_activity_line now (line_iter response) timeout_sec;
    st ← for_each responses_line responses_init (_iter_with_first first_line line_iter);
    Ok (mk_response (responses_content st) (responses_usage st) model_name
          FRIENDLY_NAME provider_type (responses_metadata st)).

End Streaming.
End SSE.

(** ** Error retryability: [_is_error_retryable] *)

(** What a parser call can do: deliver a value, raise the error its caller
    handles, or raise anything else. *)
Inductive parse_outcome : Type :=
| Parsed (v : pyobj)
| Rejected
| Crashed (e : exn).

(** [error.response.json()] of an SDK exception, when it has one. *)
Inductive sdk_response : Type :=
| NoResponse
| ResponseJsonRaises
| ResponseJson (v : pyobj).

(** An exception as the classifier reads it: [str(error)] and the
    response attached to it. *)
Record api_error : Type := mk_error {
  error_text : string;
  error_response : sdk_response;
}.

Module Retry.

Definition double_quote : ascii := "034"%char.
Definition newline : ascii := "010"%char.

(** The suffix of [s] from its first [c]. *)
Fixpoint from_first (c : ascii) (s : string) : option string :=
  match s with
  | EmptyString => None
  | String a s' => if Ascii.eqb a c then Some s else from_first c s'
  end.

(** The prefix of [s] through its last [c]. *)
Fixpoint through_last (c : ascii) (s : string) : option string :=
  match s with
  | EmptyString => None
  | String a s' =>
      match through_last c s' with
      | Some t => Some (String a t)
      | None => if Ascii.eqb a c then Some (String a EmptyString) else None
      end
  end.

(** [s.split("\n")] *)
Fixpoint split_lines (s : string) : list string :=
  match s with
  | EmptyString => [EmptyString]
  | String a s' =>
      if Ascii.eqb a newline then EmptyString :: split_lines s'
      else
        match split_lines s' with
        | l :: ls => String a l :: ls
        | [] => [String a EmptyString]
        end
  end.

Fixpoint first_some {A B : Type} (f : A -> option B) (xs : list A) : option B :=
  match xs with
  | [] => None
  | x :: xs' => match f x with Some y => Some y | None => first_some f xs' end
  end.

(** [re.search(r"\{.*\}", text)]: the dot matches no newline, so the match
    lies in the first line that has a closing brace after an opening one,
    from its first opening brace through its last closing brace. *)
Definition search_braces (text : string) : option string :=
  first_some (fun line => from_first "{" line ≫= through_last "}") (split_lines text).

Definition retryable_indicators : list string :=
  ["timeout"; "connection"; "network"; "temporary"; "unavailable"; "retry";
   "408"; "500"; "502"; "503"; "504"; "ssl"; "handshake"].

(** The outcome of reading [type] and [code] in the [try] block. *)
Inductive fields_outcome : Type :=
| Fields (error_type error_code : pyobj)
| Handled
| Unhandled (e : exn).

Definition is_error_key (v : pyobj) : bool := Py.eq_str v "error".

(** [if "error" in error_data: error_info = error_data["error"]; ...].
    Reading [.get] off a value that is no dict raises [AttributeError],
    which the [except] clause handles; subscripting a set or a sequence
    with a string raises [TypeError], which it does not. *)
Definition read_error_data (error_data : pyobj) : fields_outcome :=
  match error_data with
  | PDict d =>
      match Py.lookup "error" d with
      | Some (PDict error_info) =>
          Fields (Py.get error_info "type") (Py.get error_info "code")
      | Some _ => Handled
      | None => Fields PNone PNone
      end
  | PList xs | PSet xs =>
      if existsb is_error_key xs
      then Unhandled (TypeError "object is not subscriptable with a string")
      else Fields PNone PNone
  | PStr s =>
      if PyStr.contains "error" s
      then Unhandled (TypeError "string indices must be integers")
      else Fields PNone PNone
  | PNone | PBool _ | PInt _ | PFloat _ =>
      Unhandled (TypeError "argument is not iterable")
  end.

(** The [except] branch: the SDK exception's own response, every failure
    in it silenced by [except Exception: pass]. *)
Definition sdk_fields (response : sdk_response) : pyobj * pyobj :=
  match response with
  | ResponseJson (PDict d) =>
      match Py.lookup "error" d with
      | Some (PDict error_info) => (Py.get error_info "type", Py.get error_info "code")
      | _ => (PNone, PNone)
      end
  | _ => (PNone, PNone)
  end.

(** The final [if/elif/else] on the structured codes. *)
Definition retryable_429 (error_type error_code : pyobj) : bool :=
  if Py.eq_str error_type "tokens" then false
  else if Py.eq_str error_code "invalid_request_error"
          || Py.eq_str error_code "context_length_exceeded" then false
  else true.

Section Classifier.

(** [ast.literal_eval]: [Rejected] stands for [ValueError] and
    [SyntaxError], [Crashed] for any other exception. *)
Variable literal_eval : string -> parse_outcome.
(** [json.loads]; [None] stands for [json.JSONDecodeError]. *)
Variable json_loads : string -> option pyobj.

(** The two parsers in the order the code tries them. *)
Definition parse_error_data (json_like_str : string) : parse_outcome :=
  match literal_eval json_like_str with
  | Parsed v => Parsed v
  | Rejected =>
      let json_str := PyStr.replace_char "'" double_quote json_like_str in
      match json_loads json_str with
      | Some v => Parsed v
      | None => Rejected
      end
  | Crashed e => Crashed e
  end.

Definition structured_fields (error : api_error) : result (pyobj * pyobj) :=
  match search_braces (error_text error) with
  | None => Ok (PNone, PNone)
  | Some json_like_str =>
      match parse_error_data json_like_str with
      | Parsed error_data =>
          match read_error_data error_data with
          | Fields error_type error_code => Ok (error_type, error_code)
          | Handled => Ok (sdk_fields (error_response error))
          | Unhandled e => Raise e
          end
      | Rejected => Ok (sdk_fields (error_response error))
      | Crashed e => Raise e
      end
  end.

Definition _is_error_retryable (error : api_error) : result bool :=
  let error_str := PyStr.lower (error_text error) in
  if PyStr.contains "429" error_str then
    '(error_type, error_code) ← structured_fields error;
    Ok (retryable_429 error_type error_code)
  else
    Ok (existsb (fun indicator => PyStr.contains indicator error_str)
          retryable_indicators).

End Classifier.
End Retry.

(** ** The retry runner and its two call sites *)

(** What the runner does, in order: the attempts it makes and the sleeps
    between them. *)
Inductive retry_event : Type :=
| Attempt (number : nat)
| Sleep (delay : Z).

Module RetryRunner.

Section Runner.

Context {A : Type}.
(** [self._is_error_retryable] *)
Variable is_retryable : exn -> bool.
(** The outcome of the [n]-th call of [operation], counted from 1. *)
Variable operation : nat -> result A.

(** Modelled from the spec: [ModelProvider._run_with_retries] is defined in
    providers/base.py, which is not among the sources.  Section 4.3:
    "Attempt 1 runs immediately; on a retryable failure, sleep [delays[i]]
    then attempt [i+2]; on a non-retryable failure, abort immediately; after
    the last attempt fails, raise".  [i] is the index of the attempt about
    to run and [later] the number of attempts allowed after it; the failure
    that leaves the runner is the last underlying error, which the call
    sites wrap. *)
Fixpoint attempts_from (i later : nat) (delays : list Z)
    : list retry_event * result A :=
  match operation (S i) with
  | Ok a => ([Attempt (S i)], Ok a)
  | Raise e =>
      match later with
      | O => ([Attempt (S i)], Raise e)
      | S later' =>
          if is_retryable e then
            match delays !! i with
            | Some delay =>
                let '(events, r) := attempts_from (S i) later' delays in
                (Attempt (S i) :: Sleep delay :: events, r)
            | None => ([Attempt (S i)], Raise (IndexError "list index out of range"))
            end
          else ([Attempt (S i)], Raise e)
      end
  end.

(** Modelled from the spec: the contract [run(operation, max_attempts,
    delays)] of section 4.3; what it does without a single attempt allowed
    is not specified and is an error here. *)
Definition _run_with_retries (max_attempts : nat) (delays : list Z)
    : list retry_event * result A :=
  match max_attempts with
  | O => ([], Raise (ValueError "max_attempts must be at least 1"))
  | S later => attempts_from 0 later delays
  end.

End Runner.

(** [attempt_counter["value"]]: every call of [_attempt] adds one. *)
Definition is_attempt (ev : retry_event) : bool :=
  match ev with Attempt _ => true | Sleep _ => false end.

Definition attempt_counter (events : list retry_event) : nat :=
  length (List.filter is_attempt events).

(** [f"{attempts} attempt{'s' if attempts > 1 else ''}"] *)
Definition attempts_phrase (attempts : nat) : string :=
  pretty attempts +:+ " attempt" +:+ (if Nat.ltb 1 attempts then "s" else "").

End RetryRunner.

(** The retry tail of [generate_content] (the chat-completions path). *)
Module generate_content.

Definition max_retries : nat := 4.
Definition retry_delays : list Z := [1; 3; 5; 8].

Definition run (FRIENDLY_NAME resolved_model : string) (is_retryable : exn -> bool)
    (_attempt : nat -> result ModelResponse)
    : list retry_event * result ModelResponse :=
  let '(events, r) :=
    RetryRunner._run_with_retries is_retryable _attempt max_retries retry_delays in
  match r with
  | Ok response => (events, Ok response)
  | Raise exc =>
      let attempts := Nat.max (RetryRunner.attempt_counter events) 1 in
      let error_msg :=
        FRIENDLY_NAME +:+ " API error for model " +:+ resolved_model +:+ " after "
        +:+ RetryRunner.attempts_phrase attempts +:+ ": " +:+ exn_text exc in
      (events, Raise (RuntimeError error_msg))
  end.

End generate_content.

(** The retry tail of [_generate_with_responses_endpoint]. *)
Module _generate_with_responses_endpoint.

Definition max_retries : nat := 4.
Definition retry_delays : list Z := [1; 3; 5; 8].

Definition run (is_retryable : exn -> bool) (_attempt : nat -> result ModelResponse)
    : list retry_event * result ModelResponse :=
  let '(events, r) :=
    RetryRunner._run_with_retries is_retryable _attempt max_retries retry_delays in
  match r with
  | Ok response => (events, Ok response)
  | Raise exc =>
      let attempts := Nat.max (RetryRunner.attempt_counter events) 1 in
      let error_msg :=
        "responses endpoint error after "
        +:+ RetryRunner.attempts_phrase attempts +:+ ": " +:+ exn_text exc in
      (events, Raise (RuntimeError error_msg))
  end.

End _generate_with_responses_endpoint.

(** ** The alias-aware allow-list: [_ensure_model_allowed] *)

Record restriction_state : Type := mk_restriction {
  allowed_models : option (gset string);
  _allowed_alias_cache : gmap string string;
}.

Module AllowList.

Definition str_le (a b : string) : Prop := String.leb a b = true.

#[global] Instance str_le_dec : RelDecision str_le :=
  fun a b => decide (String.leb a b = true).

(** [sorted(self.allowed_models)] *)
Definition sorted (s : gset string) : list string := merge_sort str_le (elements s).

Section Ensure.

(** [self._resolve_model_name]; [None] stands for a raised exception. *)
Variable _resolve_model_name : string -> option string.
(** [list(self.allowed_models)]: the order in which a set is iterated. *)
Variable list_of_set : gset string -> list string.
(** How an f-string renders a list of strings. *)
Variable repr_list : list string -> string.

(** The [for allowed_entry in list(self.allowed_models)] loop: whether it
    left through [break] with a match, and the alias cache it leaves. *)
Fixpoint scan_entries (canonical : string) (entries : list string)
    (cache : gmap string string) : bool * gmap string string :=
  match entries with
  | [] => (false, cache)
  | allowed_entry :: rest =>
      match cache !! allowed_entry with
      | Some normalized_resolved =>
          if String.eqb normalized_resolved canonical then (true, cache)
          else scan_entries canonical rest cache
      | None =>
          match _resolve_model_name allowed_entry with
          | None => scan_entries canonical rest cache
          | Some resolved_name =>
              if PyStr.is_empty resolved_name then scan_entries canonical rest cache
              else
                let normalized_resolved := PyStr.lower resolved_name in
                let cache := <[allowed_entry := normalized_resolved]> cache in
                if String.eqb normalized_resolved canonical then (true, cache)
                else scan_entries canonical rest cache
          end
      end
  end.

Definition not_allowed_message (requested_name : string) (allowed : gset string) : string :=
  "Model '" +:+ requested_name
  +:+ "' is not allowed by restriction policy. Allowed models: "
  +:+ repr_list (sorted allowed).

(** [super_check] is the outcome of the base class's check, which runs
    first. *)
Definition _ensure_model_allowed (super_check : result unit)
    (canonical_name requested_name : string) (st : restriction_state)
    : result unit * restriction_state :=
  match super_check with
  | Raise e => (Raise e, st)
  | Ok _ =>
      match allowed_models st with
      | None => (Ok tt, st)
      | Some allowed =>
          let requested := PyStr.lower requested_name in
          let canonical := PyStr.lower canonical_name in
          if bool_decide (requested ∉ allowed) && bool_decide (canonical ∉ allowed) then
            let '(allowed_flag, cache) :=
              scan_entries canonical (list_of_set allowed) (_allowed_alias_cache st) in
            if allowed_flag then
              (Ok tt,
               mk_restriction (Some ({[canonical]} ∪ allowed))
                 (<[canonical := canonical]> cache))
            else
              (Raise (ValueError (not_allowed_message requested_name allowed)),
               mk_restriction (Some allowed) cache)
          else (Ok tt, st)
      end
  end.

End Ensure.
End AllowList.

(** ** Capabilities and the catalogue cache ([providers/openrouter.py]) *)

Record RangeTemperatureConstraint : Type := mk_range {
  min_temp : Q;
  max_temp : Q;
  default_temp : Q;
}.

(** [providers.shared.ModelCapabilities], with [_is_generic] (an attribute
    the generic fallback sets on the instance) as a field. *)
Record ModelCapabilities : Type := mk_capabilities {
  cap_provider : ProviderType;
  cap_model_name : string;
  cap_friendly_name : string;
  intelligence_score : Z;
  description : string;
  aliases : list string;
  context_window : Z;
  max_output_tokens : Z;
  supports_extended_thinking : bool;
  supports_system_prompts : bool;
  supports_streaming : bool;
  supports_function_calling : bool;
  supports_images : bool;
  supports_json_mode : bool;
  supports_temperature : bool;
  max_image_size_mb : Q;
  temperature_constraint : RangeTemperatureConstraint;
  allow_code_generation : bool;
  _is_generic : bool;
}.

(** A catalogue record: the bindings of one decoded JSON object. *)
Abbreviation model_record := (list (string * pyobj)) (only parsing).

(** The class attributes that hold the catalogue, and a count of the calls
    of [_fetch_models_api] made so far. *)
Record catalog_state : Type := mk_catalog {
  _models_api_cache : option (gmap string model_record);
  _models_api_last_fetch : option Q;
  _models_api_last_failure : option Q;
  fetch_calls : nat;
}.

Module Catalog.

Definition FRIENDLY_NAME : string := "OpenRouter".
Definition _MODELS_API_TTL_SEC : Q := 60 * 60 * 24.
Definition _MODELS_API_FAILURE_COOLDOWN_SEC : Q := 60.

Definition Qlt_bool (a b : Q) : bool := negb (Qle_bool b a).

(** The state before the first lookup (and after the tests' reset). *)
Definition empty_state : catalog_state := mk_catalog None None None 0.

(** [_fetch_models_api]: [network] is what the GET, [raise_for_status] and
    [response.json()] produce. *)
Definition _fetch_models_api (network : result pyobj) : result (list pyobj) :=
  payload ← network;
  match payload with
  | PDict p =>
      match Py.lookup "data" p with
      | Some (PList data) => Ok data
      | _ => Ok []
      end
  | _ => Raise (AttributeError "object has no attribute get")
  end.

(** The body of [for model in models]. *)
Definition index_model (index : gmap string model_record) (model : pyobj)
    : gmap string model_record :=
  match model with
  | PDict m =>
      let index :=
        match Py.get m "id" with
        | PStr model_id => if PyStr.is_empty model_id then index else <[model_id := m]> index
        | _ => index
        end in
      match Py.get m "canonical_slug" with
      | PStr canonical_slug =>
          if PyStr.is_empty canonical_slug then index
          else
            match index !! canonical_slug with
            | Some _ => index
            | None => <[canonical_slug := m]> index
            end
      | _ => index
      end
  | _ => index
  end.

Definition is_fresh (now : Q) (st : catalog_state) : option (gmap string model_record) :=
  match _models_api_cache st, _models_api_last_fetch st with
  | Some cache, Some last_fetch =>
      if Qlt_bool (now - last_fetch) _MODELS_API_TTL_SEC then Some cache else None
  | _, _ => None
  end.

Definition in_cooldown (now : Q) (st : catalog_state) : bool :=
  match _models_api_last_failure st with
  | Some last_failure => Qlt_bool (now - last_failure) _MODELS_API_FAILURE_COOLDOWN_SEC
  | None => false
  end.

(** [now] is [time.time()] read on entry; [network] is consulted only when
    the code reaches [_fetch_models_api]. *)
Definition _get_models_api_cache (network : result pyobj) (now : Q) (st : catalog_state)
    : result (gmap string model_record) * catalog_state :=
  match is_fresh now st with
  | Some cache => (Ok cache, st)
  | None =>
      if in_cooldown now st
      then (Raise (RuntimeError "OpenRouter models API recently failed; cooldown active"), st)
      else
        match _fetch_models_api network with
        | Ok models =>
            let index := fold_left index_model models ∅ in
            (Ok index, mk_catalog (Some index) (Some now) None (S (fetch_calls st)))
        | Raise exc =>
            (Raise (RuntimeError ("Failed to fetch OpenRouter models API: " +:+ exn_text exc)),
             mk_catalog (_models_api_cache st) (_models_api_last_fetch st) (Some now)
               (S (fetch_calls st)))
        end
  end.

Definition _lookup_dynamic_model_info (network : result pyobj) (now : Q)
    (model_name : string) (st : catalog_state) : option model_record * catalog_state :=
  match _get_models_api_cache network now st with
  | (Raise _, st') => (None, st')
  | (Ok index, st') =>
      match index !! model_name with
      | Some hit => (Some hit, st')
      | None =>
          if PyStr.contains ":" model_name
          then (index !! PyStr.rsplit1_head ":" model_name, st')
          else (None, st')
      end
  end.

Definition strings_of (xs : list pyobj) : list string :=
  omap (fun v => match v with PStr s => Some s | _ => None end) xs.

(** [x or y] *)
Definition py_or (x y : pyobj) : pyobj := if Py.truthy x then x else y.

Definition member (s : string) (xs : list string) : bool := existsb (String.eqb s) xs.

Definition _build_capabilities_from_models_api (model_name : string)
    (model_info : model_record) : result ModelCapabilities :=
  declared ← Py.int (py_or (Py.get model_info "context_length") (PInt 0));
  let context_window := if declared =? 0 then 32768 else declared in
  let top_provider := py_or (Py.get model_info "top_provider") (PDict []) in
  let max_completion_tokens :=
    match top_provider with
    | PDict tp => Py.get tp "max_completion_tokens"
    | _ => PNone
    end in
  let max_output_tokens :=
    match max_completion_tokens with
    | PInt n => n
    | PBool b => Z.b2z b
    | _ => Z.min context_window 32768
    end in
  let architecture := py_or (Py.get model_info "architecture") (PDict []) in
  let input_modalities :=
    match architecture with
    | PDict a =>
        match py_or (Py.get a "input_modalities") (PList []) with
        | PList raw_modalities => strings_of raw_modalities
        | _ => []
        end
    | _ => []
    end in
  let supported_parameters :=
    match py_or (Py.get model_info "supported_parameters") (PList []) with
    | PList raw_supported => strings_of raw_supported
    | _ => []
    end in
  let description :=
    match py_or (py_or (Py.get model_info "description") (Py.get model_info "name")) (PStr "") with
    | PStr d => d
    | _ => ""
    end in
  Ok {| cap_provider := OPENROUTER;
        cap_model_name := model_name;
        cap_friendly_name := FRIENDLY_NAME +:+ " (" +:+ model_name +:+ ")";
        intelligence_score := 9;
        description := description;
        aliases := [];
        context_window := context_window;
        max_output_tokens := max_output_tokens;
        supports_extended_thinking := false;
        supports_system_prompts := true;
        supports_streaming := true;
        supports_function_calling := member "tools" supported_parameters;
        supports_images := member "image" input_modalities;
        supports_json_mode :=
          member "response_format" supported_parameters
          || member "structured_outputs" supported_parameters;
        supports_temperature := member "temperature" supported_parameters;
        max_image_size_mb := 0;
        temperature_constraint := mk_range 0 2 (3 # 10);
        allow_code_generation := true;
        _is_generic := false |}.

(** The fields of [ModelCapabilities] that have a default in the
    dataclass, so that a constructor call may leave them out. *)
Record capability_defaults : Type := mk_defaults {
  default_description : string;
  default_aliases : list string;
  default_supports_images : bool;
  default_supports_json_mode : bool;
  default_supports_temperature : bool;
  default_max_image_size_mb : Q;
}.

(** Modelled from the spec: the field defaults of
    [providers.shared.ModelCapabilities], a dataclass that is not among the
    sources.  Section 4.1 gives the generic record, which leaves these
    fields out, as "no images"; no description, no aliases and no image
    size go with it, JSON mode is off and temperature is on. *)
Definition dataclass_defaults : capability_defaults :=
  {| default_description := "";
     default_aliases := [];
     default_supports_images := false;
     default_supports_json_mode := false;
     default_supports_temperature := true;
     default_max_image_size_mb := 0 |}.

(** The record [_lookup_capabilities] builds as its fallback, with
    [generic._is_generic = True] set on it. *)
Definition generic_capabilities (canonical_name : string) : ModelCapabilities :=
  {| cap_provider := OPENROUTER;
     cap_model_name := canonical_name;
     cap_friendly_name := FRIENDLY_NAME;
     intelligence_score := 9;
     description := default_description dataclass_defaults;
     aliases := default_aliases dataclass_defaults;
     context_window := 32768;
     max_output_tokens := 32768;
     supports_extended_thinking := false;
     supports_system_prompts := true;
     supports_streaming := true;
     supports_function_calling := false;
     supports_images := default_supports_images dataclass_defaults;
     supports_json_mode := default_supports_json_mode dataclass_defaults;
     supports_temperature := default_supports_temperature dataclass_defaults;
     max_image_size_mb := default_max_image_size_mb dataclass_defaults;
     temperature_constraint := mk_range 0 2 1;
     allow_code_generation := true;
     _is_generic := true |}.

(** [vendor/model]: a slash before the last colon, if any. *)
Definition has_provider_prefix (canonical_name : string) : bool :=
  PyStr.contains "/" (PyStr.rsplit1_head ":" canonical_name).

Section Lookup.

(** [self._registry.get_capabilities]: the static registry. *)
Variable registry : string -> option ModelCapabilities.

Definition _lookup_capabilities (network : result pyobj) (now : Q)
    (canonical_name : string) (st : catalog_state)
    : result (option ModelCapabilities) * catalog_state :=
  match registry canonical_name with
  | Some capabilities => (Ok (Some capabilities), st)
  | None =>
      if has_provider_prefix canonical_name then
        match _lookup_dynamic_model_info network now canonical_name st with
        | (Some model_info, st') =>
            (Some <$> _build_capabilities_from_models_api canonical_name model_info, st')
        | (None, st') => (Ok (Some (generic_capabilities canonical_name)), st')
        end
      else (Ok None, st)
  end.

End Lookup.
End Catalog.

(** ** A reference decoder for the worked examples

    [json.loads], [ast.literal_eval] and [str] belong to the Python runtime
    and are parameters of the definitions above.  The worked examples need
    them on concrete texts; this decoder reads the part of both grammars
    those texts use: objects, arrays, strings without escapes, integers and
    the three constants.  Any other text is turned down, so it stands for
    the runtime's parsers on texts of that part only. *)

Module RefParse.

Inductive dialect : Type := JsonText | PyLiteral.

Definition double_quote : ascii := "034"%char.

Definition is_ws (c : ascii) : bool :=
  Ascii.eqb c " " || Ascii.eqb c "009" || Ascii.eqb c "010" || Ascii.eqb c "013".

Fixpoint skip_ws (s : string) : string :=
  match s with
  | String c s' => if is_ws c then skip_ws s' else s
  | EmptyString => EmptyString
  end.

Definition opens_string (d : dialect) (c : ascii) : bool :=
  Ascii.eqb c double_quote
  || match d with PyLiteral => Ascii.eqb c "'" | JsonText => false end.

(** The text up to the closing quote [q], and what follows it. *)
Fixpoint read_string (q : ascii) (s : string) : option (string * string) :=
  match s with
  | EmptyString => None
  | String c s' =>
      if Ascii.eqb c q then Some (EmptyString, s')
      else if Ascii.eqb c "\" || Nat.ltb (nat_of_ascii c) 32 then None
      else '(t, r) ← read_string q s'; Some (String c t, r)
  end.

Definition keywords (d : dialect) : list (string * pyobj) :=
  match d with
  | JsonText => [("true", PBool true); ("false", PBool false); ("null", PNone)]
  | PyLiteral => [("True", PBool true); ("False", PBool false); ("None", PNone)]
  end.

Definition read_keyword (d : dialect) (s : string) : option (pyobj * string) :=
  Retry.first_some
    (fun kw : string * pyobj =>
       if PyStr.startswith kw.1 s then Some (kw.2, PyStr.drop (String.length kw.1) s)
       else None)
    (keywords d).

(** An integer without superfluous leading zeros, not followed by a
    fraction or an exponent. *)
Definition read_integer (s : string) : option (pyobj * string) :=
  let '(neg, ds) := match s with String "-" r => (true, r) | _ => (false, s) end in
  match PyNum.digits 0 0 ds with
  | (_, O, _) => None
  | (n, S k, rest) =>
      let leading_zero := PyStr.startswith "0" ds && Nat.ltb 0 k in
      let goes_on :=
        match rest with
        | String c _ => Ascii.eqb c "." || Ascii.eqb c "e" || Ascii.eqb c "E"
        | EmptyString => false
        end in
      if leading_zero || goes_on then None
      else Some (PInt (if neg then - n else n), rest)
  end.

(** Elements separated by commas up to [close]; [s] stands at an element. *)
Fixpoint items {A : Type} (fuel : nat) (elem : string -> option (A * string))
    (close : ascii) (trailing : bool) (acc : list A) (s : string)
    : option (list A * string) :=
  match fuel with
  | O => None
  | S fuel' =>
      '(v, r) ← elem s;
      match skip_ws r with
      | String c r' =>
          if Ascii.eqb c "," then
            let r'' := skip_ws r' in
            match r'' with
            | String c' r3 =>
                if trailing && Ascii.eqb c' close then Some (rev (v :: acc), r3)
                else items fuel' elem close trailing (v :: acc) r''
            | EmptyString => None
            end
          else if Ascii.eqb c close then Some (rev (v :: acc), r')
          else None
      | EmptyString => None
      end
  end.

Definition sequence {A : Type} (fuel : nat) (elem : string -> option (A * string))
    (close : ascii) (trailing : bool) (s : string) : option (list A * string) :=
  match skip_ws s with
  | String c r => if Ascii.eqb c close then Some ([], r) else items fuel elem close trailing [] (String c r)
  | EmptyString => None
  end.

Definition allows_trailing_comma (d : dialect) : bool :=
  match d with PyLiteral => true | JsonText => false end.

Fixpoint value (d : dialect) (fuel : nat) (s : string) : option (pyobj * string) :=
  match fuel with
  | O => None
  | S fuel' =>
      match skip_ws s with
      | EmptyString => None
      | String c r =>
          if opens_string d c then '(t, r') ← read_string c r; Some (PStr t, r')
          else if Ascii.eqb c "[" then
            '(xs, r') ← sequence fuel' (value d fuel') "]" (allows_trailing_comma d) r;
            Some (PList xs, r')
          else if Ascii.eqb c "{" then
            let member (s : string) : option ((string * pyobj) * string) :=
              match skip_ws s with
              | String q r1 =>
                  if opens_string d q then
                    '(k, r2) ← read_string q r1;
                    match skip_ws r2 with
                    | String ":" r3 => '(v, r4) ← value d fuel' r3; Some ((k, v), r4)
                    | _ => None
                    end
                  else None
              | EmptyString => None
              end in
            '(kvs, r') ← sequence fuel' member "}" (allows_trailing_comma d) r;
            Some (PDict (rev kvs), r')
          else if Ascii.eqb c "-" || PyNum.is_digit c then read_integer (String c r)
          else read_keyword d (String c r)
      end
  end.

Definition loads (d : dialect) (s : string) : option pyobj :=
  '(v, r) ← value d (S (String.length s)) s;
  if PyStr.is_empty (skip_ws r) then Some v else None.

Definition json_loads : string -> option pyobj := loads JsonText.

Definition literal_eval (s : string) : parse_outcome :=
  match loads PyLiteral s with
  | Some v => Parsed v
  | None => Rejected
  end.

(** [str(v)] on the values the examples print: a string is itself. *)
Definition py_str (v : pyobj) : string :=
  match v with
  | PStr s => s
  | PNone => "None"
  | PBool true => "True"
  | PBool false => "False"
  | PInt n => pretty n
  | _ => "<object>"
  end.

(** The number of decimal places, at most [fuel], after which [num / den]
    terminates. *)
Fixpoint decimal_places (fuel : nat) (k : nat) (num : Z) (den : Z) : option nat :=
  match fuel with
  | O => None
  | S fuel' =>
      if (num * 10 ^ Z.of_nat k) mod den =? 0 then Some k
      else decimal_places fuel' (S k) num den
  end.

Fixpoint zeros (n : nat) : string :=
  match n with O => EmptyString | S n' => String "0" (zeros n') end.

(** A non-negative float as an f-string prints it, for the timeouts of the
    examples: [15.0], [0.05], [0.2].  Covers the values that terminate
    within nine decimal places. *)
Definition format_seconds (t : Q) : string :=
  let num := Qnum (Qred t) in
  let den := Z.pos (Qden (Qred t)) in
  match decimal_places 9 1 num den with
  | Some k =>
      let scaled := num * 10 ^ Z.of_nat k / den in
      let whole := scaled / 10 ^ Z.of_nat k in
      let frac := pretty (scaled mod 10 ^ Z.of_nat k) in
      pretty whole +:+ "." +:+ zeros (k - String.length frac) +:+ frac
  | None => pretty num +:+ "/" +:+ pretty den
  end.

(** A text with every apostrophe turned into a double quote: the examples
    write their JSON with apostrophes. *)
Definition quoted (s : string) : string := PyStr.replace_char "'" double_quote s.

End RefParse.



(** * Vocabulary of the statements

    What the properties below are stated with: the notions the
    specification uses, written from its words, and the data of the worked
    examples. *)

Module UsageSpec.

(** A token count as a usage block carries it: an integer, or absent. *)
Definition count (n : option Z) : pyobj :=
  match n with
  | Some k => PInt k
  | None => PNone
  end.

(** The documented normal form: a missing total is the sum, and three
    zeros are no usage at all. *)
Definition normalized (i o : Z) (t : option Z) : option usage_counts :=
  let total := default (i + o) t in
  if (i =? 0) && (o =? 0) && (total =? 0) then None else Some (mk_usage i o total).

End UsageSpec.

Module TimeoutSpec.

Definition is_nan (x : float) : bool := negb (PrimFloat.eqb x x).

End TimeoutSpec.

Module FirstActivitySpec.
Import SSE.

(** The time the lines of [pre] take, one after the other. *)
Definition total_delay (pre : list (Q * string)) : Q :=
  fold_right (fun e acc => (e.1 + acc)%Q) 0%Q pre.

Definition delays_nonneg (lines : list (Q * string)) : Prop :=
  Forall (fun e => (0 <= e.1)%Q) lines.

Definition no_activity (lines : list (Q * string)) : Prop :=
  Forall (fun e => is_first_activity e.2 = false) lines.

End FirstActivitySpec.

Module ChatSpec.
Import SSE.

(** The [delta.content] string of one entry of [choices]. *)
Definition delta_of_choice (choice : pyobj) : option string :=
  match choice with
  | PDict c =>
      match Py.get c "delta" with
      | PDict delta =>
          match Py.get delta "content" with
          | PStr token => Some token
          | _ => None
          end
      | _ => None
      end
  | _ => None
  end.

(** The [choices[].delta.content] strings of a decoded chunk, in order. *)
Definition payload_deltas (payload : pyobj) : list string :=
  match payload with
  | PDict p =>
      match Py.get p "choices" with
      | PList choices => omap delta_of_choice choices
      | _ => []
      end
  | _ => []
  end.

(** A line the protocol ignores: blank, or a comment. *)
Definition ignorable (line : string) : Prop :=
  PyStr.strip line = "" \/ PyStr.startswith ":" (PyStr.strip line) = true.

(** A [data:] line and its payload. *)
Definition data_line (line data : string) : Prop :=
  PyStr.startswith "data:" (PyStr.strip line) = true
  /\ PyStr.lstrip (PyStr.drop 5 (PyStr.strip line)) = data.

Section Deltas.

Variable json_loads : string -> option pyobj.

(** All delta strings of a stream in arrival order: those of every decoded
    [data:] line, up to [[DONE]] or the end of the stream. *)
Fixpoint stream_deltas (lines : list string) : list string :=
  match lines with
  | [] => []
  | line :: rest =>
      match data_of_line line with
      | None => stream_deltas rest
      | Some data =>
          if String.eqb data "[DONE]" then []
          else
            match json_loads data with
            | Some payload => payload_deltas payload ++ stream_deltas rest
            | None => []
            end
      end
  end.

End Deltas.
End ChatSpec.

Module ResponsesSpec.

(** The [text] of one entry of a [content] list, when its type is
    [output_text]. *)
Definition output_text_of (content_item : pyobj) : option string :=
  match content_item with
  | PDict ci =>
      if Py.eq_str (Py.get ci "type") "output_text" then
        match Py.get ci "text" with
        | PStr text => Some text
        | _ => None
        end
      else None
  | _ => None
  end.

(** The texts of [output[].content[]], in order. *)
Definition output_texts (response_payload : list (string * pyobj)) : list string :=
  match Py.get response_payload "output" with
  | PList output =>
      flat_map
        (fun item =>
           match item with
           | PDict it =>
               match Py.get it "content" with
               | PList content => omap output_text_of content
               | _ => []
               end
           | _ => []
           end)
        output
  | _ => []
  end.

(** The state after lines that all let the loop go on. *)
Fixpoint run_through {S : Type} (body : S -> string -> step S) (st : S)
    (lines : list string) : option S :=
  match lines with
  | [] => Some st
  | line :: rest =>
      match body st line with
      | Continue st' => run_through body st' rest
      | _ => None
      end
  end.

End ResponsesSpec.

Module RetrySpec.


End RetrySpec.

Module RetryRunnerSpec.
Import RetryRunner.

(** [k] attempts in a row, numbered from [i + 1], with the sleep
    [delays[i]] after the attempt of index [i] whenever another follows. *)
Fixpoint schedule (delays : list Z) (i k : nat) : list retry_event :=
  match k with
  | O => []
  | S k' =>
      Attempt (S i) ::
      match k' with
      | O => []
      | S _ => Sleep (default 0 (delays !! i)) :: schedule delays (S i) k'
      end
  end.

Section Final.

Context {A : Type}.
Variable is_retryable : exn -> bool.

(** A failure ends the run when it is the last attempt allowed or when it
    is not retryable. *)
Definition final (later m : nat) (r : result A) : Prop :=
  match r with
  | Ok _ => True
  | Raise e => later = m \/ is_retryable e = false
  end.

End Final.

(** What a call site promises about its retry tail [run], which allows
    [max_attempts] attempts with the sleeps of [delays]: the first attempt
    runs at once; after [m] retryable failures the next attempt decides,
    by succeeding, by failing for good, or by being the last one; a failure
    leaves as one [RuntimeError] that names the attempts made and the last
    underlying error. *)
Definition retry_contract (max_attempts : nat) (delays : list Z)
    (run : (exn -> bool) -> (nat -> result ModelResponse)
           -> list retry_event * result ModelResponse) : Prop :=
  forall is_retryable _attempt,
  (exists events, (run is_retryable _attempt).1 = Attempt 1 :: events)
  /\ forall m,
     (m < max_attempts)%nat ->
     (forall j, (j < m)%nat ->
        exists e, _attempt (S j) = Raise e /\ is_retryable e = true) ->
     (forall response,
         _attempt (S m) = Ok response ->
         run is_retryable _attempt = (schedule delays 0 (S m), Ok response))
     /\ (forall e,
         _attempt (S m) = Raise e ->
         S m = max_attempts \/ is_retryable e = false ->
         exists msg,
           run is_retryable _attempt = (schedule delays 0 (S m), Raise (RuntimeError msg))
           /\ PyStr.contains (attempts_phrase (S m)) msg = true
           /\ PyStr.contains (exn_text e) msg = true).

End RetryRunnerSpec.

Module AllowListSpec.

Section Resolver.

Variable _resolve_model_name : string -> option string.

(** [entry] alias-resolves to [canonical]: the resolver gives a name, not
    empty, whose lower-cased form is [canonical]. *)
Definition resolves_to (entry canonical : string) : Prop :=
  exists resolved,
    _resolve_model_name entry = Some resolved
    /\ resolved <> "" /\ PyStr.lower resolved = canonical.

(** Every memoized entry holds what resolution gives for it. *)
Definition cache_sound (cache : gmap string string) : Prop :=
  forall entry v, cache !! entry = Some v -> resolves_to entry v.


End Resolver.
End AllowListSpec.

Module CatalogSpec.
Import Catalog.



End CatalogSpec.

(** ** Data of the worked examples *)

(** The stream of the first test of the repository, with a timeout of 0.2
    seconds. *)
Definition keepalive_stream : line_stream :=
  mk_stream [(0%Q, ": OPENROUTER PROCESSING"); (0%Q, ""); (1 # 20, "data: [DONE]")] 0.

(** The chat-completions stream of the repository's first test: a
    keep-alive, the deltas "hi" and " there", then [[DONE]]. *)
Definition chat_test_response : http_response :=
  mk_http 200 ""
    (mk_stream
       [(0%Q, ": OPENROUTER PROCESSING"); (0%Q, "");
        (1 # 20, RefParse.quoted
           "data: {'id':'gen-1','created':1,'model':'z-ai/glm-4.7','choices':[{'index':0,'delta':{'content':'hi'}}]}");
        (0%Q, "");
        (0%Q, RefParse.quoted
           "data: {'id':'gen-1','created':1,'model':'z-ai/glm-4.7','choices':[{'index':0,'delta':{'content':' there'}}]}");
        (0%Q, "");
        (0%Q, "data: [DONE]"); (0%Q, "")]
       0).

Definition chat_test_result : ModelResponse :=
  mk_response "hi there" None "z-ai/glm-4.7" "OpenRouter" OPENROUTER
    (<["id" := PStr "gen-1"]> (<["created" := PInt 1]> (<["model" := PStr "z-ai/glm-4.7"]>
      (<["endpoint" := PStr "chat_completions"]> (<["streaming" := PBool true]> ∅))))).

(** The responses stream of the repository's third test: a keep-alive,
    then [response.completed] carrying the text "hello", no delta before. *)
Definition responses_test_line : string :=
  RefParse.quoted
    "data: {'type':'response.completed','response':{'id':'resp_1','created_at':123,'model':'o3-pro','output':[{'type':'message','role':'assistant','content':[{'type':'output_text','text':'hello'}]}]}}".

Definition responses_test_response : http_response :=
  mk_http 200 ""
    (mk_stream [(0%Q, ": OPENROUTER PROCESSING"); (0%Q, ""); (0%Q, responses_test_line); (0%Q, "")] 0).

Definition responses_test_event : list (string * pyobj) :=
  Eval vm_compute in
    match RefParse.json_loads (PyStr.lstrip (PyStr.drop 5 responses_test_line)) with
    | Some (PDict ev) => ev
    | _ => []
    end.

Definition responses_test_payload : list (string * pyobj) :=
  Eval vm_compute in
    match Py.get responses_test_event "response" with
    | PDict r => r
    | _ => []
    end.

Definition responses_test_result : ModelResponse :=
  mk_response "hello" None "o3-pro" "OpenRouter" OPENROUTER
    (<["id" := PStr "resp_1"]> (<["created" := PInt 123]> (<["model" := PStr "o3-pro"]>
      (<["last_event_type" := PStr "response.completed"]>
        (<["endpoint" := PStr "responses"]> (<["streaming" := PBool true]> ∅)))))).

(** A stream whose [response.completed] carries no text after a delta
    "abc": the content is the delta, not the (empty) concatenation of the
    texts of the completed response. *)
Definition responses_fallback_response : http_response :=
  mk_http 200 ""
    (mk_stream
       [(0%Q, ": OPENROUTER PROCESSING");
        (0%Q, RefParse.quoted "data: {'type':'response.output_text.delta','delta':'abc'}");
        (0%Q, RefParse.quoted
           "data: {'type':'response.completed','response':{'id':'resp_2','output':[]}}")]
       0).



(** An operation that fails twice with a retryable error, then succeeds. *)
Definition flaky_attempt (n : nat) : result ModelResponse :=
  if Nat.ltb n 3 then Raise (RuntimeError "503 service unavailable")
  else Ok chat_test_result.

(** An operation that never succeeds. *)
Definition failing_attempt (n : nat) : result ModelResponse :=
  Raise (RuntimeError "connection reset").

(** A registry in which "sonnet" is an alias of a canonical model and every
    other name resolves to itself. *)
Definition alias_resolver (name : string) : option string :=
  if String.eqb name "sonnet" then Some "anthropic/claude-sonnet-4" else Some name.

(** A list as an f-string prints it, for lists of plain names. *)
Definition plain_repr_list (names : list string) : string :=
  "[" +:+ String.concat ", " (map (fun n => "'" +:+ n +:+ "'") names) +:+ "]".

(** The catalogue of the repository's dynamic-capability test. *)
Definition acme_catalog : pyobj :=
  PDict [("data", PList [PDict
    [("id", PStr "acme/unknown-model");
     ("name", PStr "Acme: Unknown Model");
     ("description", PStr "A test model");
     ("context_length", PInt 100000);
     ("architecture", PDict [("input_modalities", PList [PStr "text"])]);
     ("supported_parameters",
      PList [PStr "tools"; PStr "response_format"; PStr "temperature"]);
     ("top_provider", PDict [("max_completion_tokens", PInt 8192)])]])].

Definition no_registry (name : string) : option ModelCapabilities := None.

(** The state a failed fetch at time 1000 leaves behind. *)
Definition after_failed_fetch : catalog_state :=
  (Catalog._get_models_api_cache (Raise (RuntimeError "boom")) 1000 Catalog.empty_state).2.

(** A field of the capabilities a lookup found. *)
Definition found {A : Type} (field : ModelCapabilities -> A)
    (r : result (option ModelCapabilities)) : option A :=
  match r with
  | Ok (Some capabilities) => Some (field capabilities)
  | _ => None
  end.

(** * Properties *)

(** ** Strings *)

Module PyStrFacts.
Import PyStr.

Lemma append_cons (c : ascii) (s r : string) : String c s +:+ r = String c (s +:+ r).
Proof. reflexivity. Qed.

Lemma startswith_append (p r : string) : startswith p (p +:+ r) = true.
Proof.
  induction p as [|c p IH]; [reflexivity|].
  change (Ascii.eqb c c && startswith p (p +:+ r) = true).
  now rewrite Ascii.eqb_refl.
Qed.

Lemma contains_startswith (sub s : string) :
  startswith sub s = true -> contains sub s = true.
Proof. intros H. destruct s; simpl; rewrite H; reflexivity. Qed.

Lemma contains_append_r (sub p s : string) :
  contains sub s = true -> contains sub (p +:+ s) = true.
Proof.
  intros H. induction p as [|c p IH]; [exact H|].
  rewrite append_cons. simpl. rewrite IH. apply orb_true_r.
Qed.

(** A text occurs in whatever is built around it. *)
Lemma contains_middle (sub p r : string) : contains sub (p +:+ sub +:+ r) = true.
Proof. apply contains_append_r, contains_startswith, startswith_append. Qed.

Lemma append_empty_r (s : string) : s +:+ "" = s.
Proof.
  induction s as [|c s IH]; [reflexivity|]. now rewrite append_cons, IH.
Qed.

Lemma append_assoc (a b c : string) : (a +:+ b) +:+ c = a +:+ b +:+ c.
Proof.
  induction a as [|x a IH]; [reflexivity|]. now rewrite !append_cons, IH.
Qed.

Lemma join_cons (x : string) (xs : list string) : join (x :: xs) = x +:+ join xs.
Proof.
  unfold join. destruct xs as [|y ys]; cbn; [symmetry; apply append_empty_r | reflexivity].
Qed.

Lemma join_app (xs ys : list string) : join (xs ++ ys) = join xs +:+ join ys.
Proof.
  induction xs as [|x xs IH]; [reflexivity|].
  rewrite <- app_comm_cons, !join_cons, IH, append_assoc. reflexivity.
Qed.

Lemma join_nil : join [] = "".
Proof. reflexivity. Qed.

Lemma is_empty_true (s : string) : is_empty s = true <-> s = "".
Proof. destruct s; simpl; split; congruence. Qed.

End PyStrFacts.

(** ** Usage normalisation *)

Module UsageFacts.
Import UsageSpec.

Lemma to_int_count (n : option Z) : _to_int (count n) = Ok (default 0 n).
Proof.
  destruct n as [k|]; [|reflexivity].
  unfold _to_int; simpl. destruct (Z.eqb_spec k 0); simpl; congruence.
Qed.

Lemma is_none_count (n : option Z) : Py.is_none (count n) = bool_decide (n = None).
Proof. destruct n; reflexivity. Qed.

(** The chat-completions schema: whenever one of [prompt_tokens],
    [completion_tokens], [total_tokens] is present, the block is read by
    those three keys. *)
Lemma extract_usage_chat_block (d : list (string * pyobj)) (p c t : option Z) :
  Py.get d "prompt_tokens" = count p ->
  Py.get d "completion_tokens" = count c ->
  Py.get d "total_tokens" = count t ->
  (p, c, t) <> (None, None, None) ->
  _extract_usage_dict (PDict d) = Ok (normalized (default 0 p) (default 0 c) t).
Proof.
  intros Hp Hc Ht Hsome. unfold _extract_usage_dict.
  rewrite Hp, Hc, Ht, !is_none_count.
  assert (bool_decide (p = None) && bool_decide (c = None) && bool_decide (t = None) = false) as ->.
  { destruct p, c, t; try reflexivity. congruence. }
  cbn -[count _to_int Z.add Z.eqb]. rewrite !to_int_count.
  cbn -[count _to_int Z.add Z.eqb]. rewrite is_none_count.
  unfold normalized.
  destruct t as [k|]; cbn -[count _to_int Z.add Z.eqb]; now destruct (_ && _).
Qed.

(** The responses schema, for a block that carries no total. *)
Lemma extract_usage_responses_block (d : list (string * pyobj)) (i o : option Z) :
  Py.get d "prompt_tokens" = PNone ->
  Py.get d "completion_tokens" = PNone ->
  Py.get d "total_tokens" = PNone ->
  Py.get d "input_tokens" = count i ->
  Py.get d "output_tokens" = count o ->
  _extract_usage_dict (PDict d) = Ok (normalized (default 0 i) (default 0 o) None).
Proof.
  intros Hp Hc Ht Hi Ho. unfold _extract_usage_dict.
  rewrite Hp, Hc, Ht, Hi, Ho. cbn -[count _to_int Z.add Z.eqb].
  rewrite !to_int_count. unfold normalized.
  cbn -[count _to_int Z.add Z.eqb]. now destruct (_ && _).
Qed.

Lemma normalized_nonneg (i o : Z) (t : option Z) (u : usage_counts) :
  0 <= i -> 0 <= o -> (forall k, t = Some k -> 0 <= k) ->
  normalized i o t = Some u ->
  0 <= input_tokens u /\ 0 <= output_tokens u /\ 0 <= total_tokens u.
Proof.
  intros Hi Ho Ht. unfold normalized.
  destruct (_ && _); [discriminate|]. intros [= <-]; simpl.
  destruct t as [k|]; simpl; [specialize (Ht k eq_refl)|]; lia.
Qed.

(** The spec's three examples. *)
Example extract_usage_chat_example :
  _extract_usage_dict (PDict [("prompt_tokens", PInt 3); ("completion_tokens", PInt 5)])
  = Ok (Some (mk_usage 3 5 8)).
Proof. reflexivity. Qed.

Example extract_usage_responses_example :
  _extract_usage_dict (PDict [("input_tokens", PInt 3); ("output_tokens", PInt 5)])
  = Ok (Some (mk_usage 3 5 8)).
Proof. reflexivity. Qed.

Example extract_usage_zero_example :
  _extract_usage_dict (PDict [("prompt_tokens", PInt 0); ("completion_tokens", PInt 0)])
  = Ok None.
Proof. reflexivity. Qed.

(** Nothing checks the sign of a count. *)
Example extract_usage_negative_example :
  _extract_usage_dict (PDict [("prompt_tokens", PInt (-3)); ("completion_tokens", PInt 5)])
  = Ok (Some (mk_usage (-3) 5 2)).
Proof. reflexivity. Qed.

(** C9.  A responses-style block [{input_tokens: 3, output_tokens: 5,
    total_tokens: 8}] does not normalise to [{3, 5, 8}]: its [total_tokens]
    keeps the code on the chat-completions keys, which are absent, so the
    input and output counts come out as zero. *)
Theorem extract_usage_responses_block_with_total :
  _extract_usage_dict
    (PDict [("input_tokens", PInt 3); ("output_tokens", PInt 5); ("total_tokens", PInt 8)])
  = Ok (Some (mk_usage 0 0 8)).
Proof. reflexivity. Qed.

End UsageFacts.

(** ** The first-activity timeout read from the environment *)

Module TimeoutFacts.
Import TimeoutSpec.

Lemma default_is_positive :
  PrimFloat.ltb 0 _OPENROUTER_PROCESSING_TIMEOUT_DEFAULT_SEC = true.
Proof. reflexivity. Qed.

Lemma timeout_unset : _get_openrouter_processing_timeout_sec None
                      = _OPENROUTER_PROCESSING_TIMEOUT_DEFAULT_SEC.
Proof. reflexivity. Qed.

Lemma timeout_blank (raw : string) :
  PyStr.strip raw = "" ->
  _get_openrouter_processing_timeout_sec (Some raw)
  = _OPENROUTER_PROCESSING_TIMEOUT_DEFAULT_SEC.
Proof.
  intros H. unfold _get_openrouter_processing_timeout_sec.
  change (default "" (Some raw)) with raw. now rewrite H.
Qed.

Lemma timeout_not_numeric (raw : string) :
  PyNum.float_of_str (PyStr.strip raw) = None ->
  _get_openrouter_processing_timeout_sec (Some raw)
  = _OPENROUTER_PROCESSING_TIMEOUT_DEFAULT_SEC.
Proof.
  intros H. unfold _get_openrouter_processing_timeout_sec.
  change (default "" (Some raw)) with raw. rewrite H.
  now destruct (PyStr.is_empty _).
Qed.

(** The value is the default or a parsed number that fails [value <= 0]. *)
Lemma timeout_default_or_parsed (env : option string) :
  let t := _get_openrouter_processing_timeout_sec env in
  t = _OPENROUTER_PROCESSING_TIMEOUT_DEFAULT_SEC
  \/ exists raw, env = Some raw
       /\ PyNum.float_of_str (PyStr.strip raw) = Some t
       /\ PrimFloat.leb t 0 = false.
Proof.
  unfold _get_openrouter_processing_timeout_sec.
  destruct env as [raw|]; [|now left].
  change (default "" (Some raw)) with raw.
  destruct (PyStr.is_empty _); [now left|].
  destruct (PyNum.float_of_str _) as [v|] eqn:Hv; [|now left].
  destruct (PrimFloat.leb v 0) eqn:Hle; [now left|].
  right. exists raw. auto.
Qed.

(** A number that is neither [<= 0] nor NaN is strictly positive. *)
Lemma not_le_zero_positive (v : float) :
  PrimFloat.leb v 0 = false -> is_nan v = false -> PrimFloat.ltb 0 v = true.
Proof.
  unfold is_nan.
  rewrite FloatAxioms.leb_spec, FloatAxioms.ltb_spec, FloatAxioms.eqb_spec.
  change (Prim2SF 0) with (S754_zero false).
  destruct (Prim2SF v) as [s|s| |s m e]; try destruct s; cbn; congruence.
Qed.

Lemma timeout_positive_unless_nan (env : option string) :
  let t := _get_openrouter_processing_timeout_sec env in
  is_nan t = false -> PrimFloat.ltb 0 t = true.
Proof.
  intros t Hnan. destruct (timeout_default_or_parsed env) as [H|(raw & _ & _ & Hle)].
  - fold t in H. rewrite H. reflexivity.
  - now apply not_le_zero_positive.
Qed.

(** C10.  With [OPENROUTER_PROCESSING_TIMEOUT=nan] the timeout is neither
    strictly positive nor the 15-second default: [float("nan")] succeeds
    and NaN passes the test [value <= 0]. *)
Theorem timeout_nan_is_returned :
  let t := _get_openrouter_processing_timeout_sec (Some "nan") in
  PrimFloat.ltb 0 t = false
  /\ PrimFloat.eqb t _OPENROUTER_PROCESSING_TIMEOUT_DEFAULT_SEC = false
  /\ is_nan t = true.
Proof. vm_compute. auto. Qed.

End TimeoutFacts.

(** ** The first-activity wait *)

Module FirstActivityFacts.
Import SSE FirstActivitySpec.

Lemma Qle_bool_false (a b : Q) : Qle_bool a b = false <-> (b < a)%Q.
Proof.
  split.
  - intros H. apply Qnot_le_lt. intros Hle. apply Qle_bool_iff in Hle. congruence.
  - intros H. destruct (Qle_bool a b) eqn:E; [|reflexivity].
    apply Qle_bool_iff in E. lra.
Qed.

Lemma total_delay_nonneg (pre : list (Q * string)) :
  delays_nonneg pre -> (0 <= total_delay pre)%Q.
Proof.
  induction 1 as [|[d l] pre Hd _ IH]; simpl in *; lra.
Qed.

Section Wait.

Variable format_seconds : Q -> string.

Let wait_loop := wait_loop format_seconds.
Let timed_out := timed_out_message format_seconds.
Let ended := ended_message format_seconds.

(** Both messages carry the configured timeout. *)
Lemma timed_out_message_names_timeout (t : Q) :
  PyStr.contains (format_seconds t) (timed_out_message format_seconds t) = true.
Proof. apply PyStrFacts.contains_middle. Qed.

Lemma ended_message_names_timeout (t : Q) :
  PyStr.contains (format_seconds t) (ended_message format_seconds t) = true.
Proof. apply PyStrFacts.contains_middle. Qed.

(** The first line that is first activity is returned when it arrives
    before the deadline. *)
Lemma wait_loop_returns (t deadline eof d : Q) (line : string)
    (rest : list (Q * string)) (pre : list (Q * string)) :
  forall now,
  delays_nonneg pre -> no_activity pre -> (0 <= d)%Q ->
  is_first_activity line = true ->
  (total_delay pre + d < deadline - now)%Q ->
  wait_loop t deadline now eof (pre ++ (d, line) :: rest)
  = Ok (line, mk_stream rest eof).
Proof.
  induction pre as [|[d0 l0] pre IH]; intros now Hnn Hno Hd Hact Hlt.
  - simpl in *. unfold wait_loop, SSE.wait_loop.
    assert (Qle_bool (deadline - now) 0 = false) as -> by (apply Qle_bool_false; lra).
    assert (Qle_bool (deadline - now) d = false) as -> by (apply Qle_bool_false; lra).
    now rewrite Hact.
  - inversion Hnn as [|? ? Hd0 Hnn']; subst. inversion Hno as [|? ? Hl0 Hno']; subst.
    pose proof (total_delay_nonneg pre Hnn') as Hpre. simpl in *.
    unfold wait_loop, SSE.wait_loop; fold (SSE.wait_loop format_seconds).
    assert (Qle_bool (deadline - now) 0 = false) as -> by (apply Qle_bool_false; lra).
    assert (Qle_bool (deadline - now) d0 = false) as -> by (apply Qle_bool_false; lra).
    rewrite Hl0. apply IH; auto. lra.
Qed.

(** It is too late when it arrives at the deadline or after it. *)
Lemma wait_loop_times_out (t deadline eof d : Q) (line : string)
    (rest : list (Q * string)) (pre : list (Q * string)) :
  forall now,
  no_activity pre ->
  (deadline - now <= total_delay pre + d)%Q ->
  wait_loop t deadline now eof (pre ++ (d, line) :: rest)
  = Raise (TimeoutError (timed_out t)).
Proof.
  induction pre as [|[d0 l0] pre IH]; intros now Hno Hlate.
  - simpl in *. unfold wait_loop, SSE.wait_loop.
    destruct (Qle_bool (deadline - now) 0); [reflexivity|].
    assert (Qle_bool (deadline - now) d = true) as -> by (apply Qle_bool_iff; lra).
    reflexivity.
  - inversion Hno as [|? ? Hl0 Hno']; subst. simpl in *.
    unfold wait_loop, SSE.wait_loop; fold (SSE.wait_loop format_seconds).
    destruct (Qle_bool (deadline - now) 0); [reflexivity|].
    destruct (Qle_bool (deadline - now) d0); [reflexivity|].
    rewrite Hl0. apply IH; auto. lra.
Qed.

(** A stream that ends without first activity ends the wait in a timeout. *)
Lemma wait_loop_stream_ends (t deadline eof : Q) (lines : list (Q * string)) :
  forall now,
  no_activity lines ->
  wait_loop t deadline now eof lines = Raise (TimeoutError (timed_out t))
  \/ wait_loop t deadline now eof lines = Raise (TimeoutError (ended t)).
Proof.
  induction lines as [|[d0 l0] lines IH]; intros now Hno.
  - unfold wait_loop, SSE.wait_loop.
    destruct (Qle_bool (deadline - now) 0); [now left|].
    destruct (Qle_bool (deadline - now) eof); [now left | now right].
  - inversion Hno as [|? ? Hl0 Hno']; subst. simpl in *.
    unfold wait_loop, SSE.wait_loop; fold (SSE.wait_loop format_seconds).
    destruct (Qle_bool (deadline - now) 0); [now left|].
    destruct (Qle_bool (deadline - now) d0); [now left|].
    rewrite Hl0. apply IH; auto.
Qed.

(** Whatever the wait returns is the first line of the stream that is
    first activity, and the iterator is left right after it. *)
Lemma wait_loop_result (t deadline eof : Q) (lines : list (Q * string))
    (line : string) (stream : line_stream) :
  forall now,
  wait_loop t deadline now eof lines = Ok (line, stream) ->
  exists pre d rest,
    lines = pre ++ (d, line) :: rest /\ no_activity pre
    /\ is_first_activity line = true /\ stream = mk_stream rest eof.
Proof.
  induction lines as [|[d0 l0] lines IH]; intros now.
  - unfold wait_loop, SSE.wait_loop.
    destruct (Qle_bool _ 0); [discriminate|]. destruct (Qle_bool _ eof); discriminate.
  - unfold wait_loop, SSE.wait_loop; fold (SSE.wait_loop format_seconds).
    destruct (Qle_bool _ 0); [discriminate|].
    destruct (Qle_bool _ d0); [discriminate|].
    destruct (is_first_activity l0) eqn:Hl0.
    + intros [= <- <-]. exists [], d0, lines. repeat split; auto. constructor.
    + intros H. destruct (IH _ H) as (pre & d & rest & -> & Hno & Hact & ->).
      exists ((d0, l0) :: pre), d, rest. repeat split; auto. constructor; auto.
Qed.

End Wait.

(** C3.  The wait returns the first line of the stream that is first
    activity (its stripped text starts with [data:], or starts with [:] and
    its upper-cased text contains both [OPENROUTER] and [PROCESSING]) when
    that line arrives before the deadline; when it arrives at the deadline
    or later, or the stream has no such line, the wait raises a
    [TimeoutError] whose message contains the configured timeout. *)
Theorem wait_for_first_activity_line_spec (format_seconds : Q -> string)
    (now timeout_sec : Q) (stream : line_stream) :
  let wait :=
    _wait_for_openrouter_first_activity_line format_seconds now stream timeout_sec in
  (forall line,
      is_first_activity line = true <->
      PyStr.startswith "data:" (PyStr.strip line) = true
      \/ (PyStr.startswith ":" (PyStr.strip line) = true
          /\ PyStr.contains "OPENROUTER" (PyStr.upper (PyStr.strip line)) = true
          /\ PyStr.contains "PROCESSING" (PyStr.upper (PyStr.strip line)) = true))
  /\ (forall pre d line rest,
      pending stream = pre ++ (d, line) :: rest ->
      delays_nonneg (pre ++ [(d, line)]) -> no_activity pre ->
      is_first_activity line = true ->
      ((total_delay pre + d < timeout_sec)%Q ->
       wait = Ok (line, mk_stream rest (eof_after stream)))
      /\ ((timeout_sec <= total_delay pre + d)%Q ->
          exists msg, wait = Raise (TimeoutError msg)
                      /\ PyStr.contains (format_seconds timeout_sec) msg = true))
  /\ (no_activity (pending stream) ->
      exists msg, wait = Raise (TimeoutError msg)
                  /\ PyStr.contains (format_seconds timeout_sec) msg = true).
Proof.
  intros wait. split; [|split].
  - intros line. unfold is_first_activity.
    rewrite orb_true_iff, !andb_true_iff. tauto.
  - intros pre d line rest Hpending Hnn Hno Hact.
    apply Forall_app in Hnn as [Hnn Hd].
    inversion Hd as [|? ? Hd0 _]; subst; simpl in Hd0.
    subst wait. unfold _wait_for_openrouter_first_activity_line. rewrite Hpending.
    split; intros Hcmp.
    + apply wait_loop_returns; auto. lra.
    + eexists. split; [apply wait_loop_times_out; auto; lra|].
      apply timed_out_message_names_timeout.
  - intros Hno. subst wait. unfold _wait_for_openrouter_first_activity_line.
    destruct (wait_loop_stream_ends format_seconds timeout_sec (now + timeout_sec)
                (eof_after stream) (pending stream) now Hno) as [-> | ->];
      eexists; (split; [reflexivity|]).
    + apply timed_out_message_names_timeout.
    + apply ended_message_names_timeout.
Qed.

End FirstActivityFacts.

Lemma wait_for_first_activity_line_witness :
  SSE._wait_for_openrouter_first_activity_line RefParse.format_seconds 0
    keepalive_stream (1 # 5)
  = Ok (": OPENROUTER PROCESSING", mk_stream [(0%Q, ""); (1 # 20, "data: [DONE]")] 0).
Proof.
  refine (proj1 (proj1 (proj2 (FirstActivityFacts.wait_for_first_activity_line_spec
            RefParse.format_seconds 0 (1 # 5) keepalive_stream))
          [] 0%Q ": OPENROUTER PROCESSING" [(0%Q, ""); (1 # 20, "data: [DONE]")]
          eq_refl _ _ eq_refl) _).
  - repeat constructor. simpl. lra.
  - constructor.
  - simpl. lra.
Defined.

(** The second test: the keep-alive needs 0.2 seconds, the timeout is 0.05
    seconds, and the message names it. *)
Example wait_for_first_activity_line_late :
  exists msg,
    SSE._wait_for_openrouter_first_activity_line RefParse.format_seconds 0
      (mk_stream [(1 # 5, ": OPENROUTER PROCESSING"); (0%Q, "data: [DONE]")] 0) (1 # 20)
    = Raise (TimeoutError msg)
    /\ PyStr.contains "0.05" msg = true
    /\ PyStr.contains "OPENROUTER_PROCESSING_TIMEOUT" msg = true.
Proof. eexists. split; [reflexivity|]. split; vm_compute; reflexivity. Qed.

(** ** The chat-completions loop *)

Module ChatFacts.
Import SSE ChatSpec.

Lemma strip_empty : PyStr.strip "" = "".
Proof. reflexivity. Qed.

Lemma data_of_line_ignorable (line : string) : ignorable line -> data_of_line line = None.
Proof.
  unfold data_of_line. intros [H|H].
  - destruct (PyStr.is_empty line); [reflexivity|]. now rewrite H.
  - destruct (PyStr.is_empty line); [reflexivity|].
    destruct (PyStr.is_empty _); [reflexivity|]. now rewrite H.
Qed.

Lemma data_of_line_data (line data : string) :
  data_line line data <-> data_of_line line = Some data.
Proof.
  unfold data_line, data_of_line. split.
  - intros [Hstart <-].
    destruct line as [|c line]; [discriminate|]. cbn [PyStr.is_empty].
    destruct (PyStr.strip (String c line)) as [|a s] eqn:Hs; [discriminate|].
    cbn [PyStr.is_empty]. rewrite Hstart.
    destruct (PyStr.startswith ":" (String a s)) eqn:Hc; [|reflexivity].
    cbn [PyStr.startswith] in Hstart, Hc. apply andb_true_iff in Hstart as [Ha _].
    rewrite andb_true_r in Hc.
    apply Ascii.eqb_eq in Ha, Hc. congruence.
  - destruct (PyStr.is_empty line); [discriminate|].
    destruct (PyStr.is_empty _); [discriminate|].
    destruct (PyStr.startswith ":" _); [discriminate|].
    destruct (PyStr.startswith "data:" _); [|discriminate].
    now intros [= <-].
Qed.

(** A line that is not first activity is no [data:] line. *)
Lemma data_of_line_no_activity (line : string) :
  is_first_activity line = false -> data_of_line line = None.
Proof.
  unfold is_first_activity, data_of_line. intros H.
  apply orb_false_iff in H as [H _]. rewrite H.
  destruct (PyStr.is_empty line); [reflexivity|].
  destruct (PyStr.is_empty (PyStr.strip line)); [reflexivity|].
  now destruct (PyStr.startswith ":" (PyStr.strip line)).
Qed.

Section Chat.

Variable json_loads : string -> option pyobj.
Variable py_str : pyobj -> string.
Variable format_seconds : Q -> string.
Variable FRIENDLY_NAME : string.
Variable provider_type : ProviderType.

Let chat_line := chat_line json_loads py_str.
Let generate :=
  _generate_openrouter_chat_completions_streaming
    json_loads py_str format_seconds FRIENDLY_NAME provider_type.

Lemma chat_choice_parts (choices : list pyobj) :
  forall metadata parts,
  PyStr.join (fold_left chat_choice choices (metadata, parts)).2
  = PyStr.join parts +:+ PyStr.join (omap delta_of_choice choices).
Proof.
  induction choices as [|choice choices IH]; intros metadata parts.
  - simpl. now rewrite PyStrFacts.join_nil, PyStrFacts.append_empty_r.
  - cbn [fold_left].
    change (omap delta_of_choice (choice :: choices))
      with (match delta_of_choice choice with
            | Some token => token :: omap delta_of_choice choices
            | None => omap delta_of_choice choices
            end).
    destruct choice as [| | | | | |c|]; cbn [chat_choice delta_of_choice]; try apply IH.
    destruct (Py.get c "delta") as [| | | | | |delta|]; try apply IH.
    destruct (Py.get delta "content") as [| | | |token| | |]; try apply IH.
    rewrite IH, PyStrFacts.join_cons, <- PyStrFacts.append_assoc. f_equal.
    destruct token as [|a token]; cbn [PyStr.is_empty].
    + now rewrite PyStrFacts.append_empty_r.
    + now rewrite PyStrFacts.join_app, PyStrFacts.join_cons, PyStrFacts.join_nil,
        PyStrFacts.append_empty_r.
Qed.

(** A decoded chunk appends its delta strings, in order, to the content. *)
Lemma chat_payload_appends (st st' : chat_state) (payload : pyobj) :
  chat_payload py_str st payload = Continue st' ->
  PyStr.join (content_parts st')
  = PyStr.join (content_parts st) +:+ PyStr.join (payload_deltas payload).
Proof.
  unfold chat_payload, payload_deltas.
  destruct payload as [| | | | | |p|];
    try (intros [= <-]; now rewrite PyStrFacts.join_nil, PyStrFacts.append_empty_r).
  destruct (Py.truthy _); [discriminate|].
  destruct (_extract_usage_dict _) as [extracted|e]; [|discriminate].
  destruct (Py.get p "choices") as [| | | | |choices| |];
    try (intros [= <-]; now rewrite PyStrFacts.join_nil, PyStrFacts.append_empty_r).
  match goal with
  | |- context [fold_left chat_choice choices (?m, ?ps)] =>
      pose proof (chat_choice_parts choices m ps) as H;
      destruct (fold_left chat_choice choices (m, ps)) as [metadata parts]
  end.
  intros [= <-]. exact H.
Qed.

Lemma chat_payload_never_breaks (st st' : chat_state) (payload : pyobj) :
  chat_payload py_str st payload <> Break st'.
Proof.
  unfold chat_payload. destruct payload; try discriminate.
  destruct (Py.truthy _); [discriminate|].
  destruct (_extract_usage_dict _); [|discriminate].
  destruct (Py.get _ "choices"); try discriminate.
  now destruct (fold_left _ _ _).
Qed.

(** The loop, when it returns, has collected the delta strings of the
    stream in arrival order. *)
Lemma for_each_chat_content (lines : list string) :
  forall st st',
  for_each chat_line st lines = Ok st' ->
  PyStr.join (content_parts st')
  = PyStr.join (content_parts st) +:+ PyStr.join (stream_deltas json_loads lines).
Proof.
  induction lines as [|line lines IH]; intros st st'.
  - intros [= <-]. cbn [stream_deltas].
    now rewrite PyStrFacts.join_nil, PyStrFacts.append_empty_r.
  - cbn [for_each stream_deltas]. unfold chat_line at 1, SSE.chat_line.
    destruct (data_of_line line) as [data|]; [|apply IH].
    destruct (String.eqb data "[DONE]").
    { intros [= <-]. now rewrite PyStrFacts.join_nil, PyStrFacts.append_empty_r. }
    destruct (json_loads data) as [payload|]; [|discriminate].
    destruct (chat_payload py_str st payload) as [st1|st1|e] eqn:Hp; [| |discriminate].
    + intros H. rewrite (IH _ _ H), (chat_payload_appends _ _ _ Hp).
      now rewrite PyStrFacts.join_app, PyStrFacts.append_assoc.
    + now apply chat_payload_never_breaks in Hp.
Qed.

(** Lines the wait passes over carry no delta. *)
Lemma stream_deltas_skips (pre : list (Q * string)) (lines : list string) :
  FirstActivitySpec.no_activity pre ->
  stream_deltas json_loads (map snd pre ++ lines) = stream_deltas json_loads lines.
Proof.
  induction 1 as [|[d l] pre Hl _ IH]; [reflexivity|].
  cbn [map app stream_deltas snd]. simpl in Hl.
  now rewrite (data_of_line_no_activity _ Hl).
Qed.

(** [[DONE]] ends the loop: what follows it is never read. *)
Lemma for_each_chat_done (before after : list string) (line : string) :
  data_line line "[DONE]" ->
  forall st,
  for_each chat_line st (before ++ line :: after) = for_each chat_line st before.
Proof.
  intros Hdone. apply data_of_line_data in Hdone.
  induction before as [|l before IH]; intros st.
  - cbn [app for_each]. unfold chat_line, SSE.chat_line. now rewrite Hdone.
  - cbn [app for_each]. destruct (chat_line st l); auto.
Qed.

(** A blank line or a comment changes nothing wherever it stands. *)
Lemma for_each_chat_ignorable (before after : list string) (line : string) :
  ignorable line ->
  forall st,
  for_each chat_line st (before ++ line :: after)
  = for_each chat_line st (before ++ after).
Proof.
  intros Hign. apply data_of_line_ignorable in Hign.
  induction before as [|l before IH]; intros st.
  - cbn [app for_each]. unfold chat_line at 1, SSE.chat_line. now rewrite Hign.
  - cbn [app for_each]. destruct (chat_line st l); auto.
Qed.

(** C1.  In the chat-completions loop a blank line or a comment line
    contributes nothing; a [data: [DONE]] line ends the aggregation with
    the state reached so far; every decoded [data:] object appends its
    [choices[].delta.content] strings in order; and the content of the
    response the streaming path returns is the concatenation of all delta
    strings of the stream in arrival order. *)
Theorem chat_stream_content :
  (forall before after line st,
      ignorable line ->
      chat_line st line = Continue st
      /\ for_each chat_line st (before ++ line :: after)
         = for_each chat_line st (before ++ after))
  /\ (forall before after line st,
      data_line line "[DONE]" ->
      chat_line st line = Break st
      /\ for_each chat_line st (before ++ line :: after)
         = for_each chat_line st before)
  /\ (forall line data payload st st',
      data_line line data -> data <> "[DONE]" -> json_loads data = Some payload ->
      chat_line st line = Continue st' ->
      PyStr.join (content_parts st')
      = PyStr.join (content_parts st) +:+ PyStr.join (payload_deltas payload))
  /\ (forall timeout_sec now model_name response r,
      generate timeout_sec now model_name response = Ok r ->
      content r
      = PyStr.join (stream_deltas json_loads (map snd (pending (line_iter response))))).
Proof.
  split; [|split; [|split]].
  - intros before after line st Hign. split; [|now apply for_each_chat_ignorable].
    unfold chat_line, SSE.chat_line. now rewrite (data_of_line_ignorable _ Hign).
  - intros before after line st Hdone. split; [|now apply for_each_chat_done].
    apply data_of_line_data in Hdone.
    unfold chat_line, SSE.chat_line. now rewrite Hdone.
  - intros line data payload st st' Hdata Hnot Hload.
    apply data_of_line_data in Hdata.
    unfold chat_line, SSE.chat_line. rewrite Hdata, Hload.
    apply String.eqb_neq in Hnot. rewrite Hnot. apply chat_payload_appends.
  - intros timeout_sec now model_name response r.
    unfold generate, _generate_openrouter_chat_completions_streaming.
    destruct (400 <=? status_code response); [discriminate|].
    unfold _wait_for_openrouter_first_activity_line.
    destruct (wait_loop _ _ _ _ _ _) as [[first stream]|e] eqn:Hwait; [|discriminate].
    apply FirstActivityFacts.wait_loop_result in Hwait
      as (pre & d & rest & Hpending & Hno & _ & ->).
    cbn [mbind result_bind].
    destruct (for_each _ _ _) as [st|e] eqn:Hloop; [|discriminate].
    intros [= <-]. cbn [content].
    apply for_each_chat_content in Hloop. rewrite Hloop, Hpending.
    rewrite map_app. cbn [map snd]. rewrite stream_deltas_skips by assumption.
    reflexivity.
Qed.

End Chat.
End ChatFacts.

Lemma chat_stream_content_witness :
  SSE._generate_openrouter_chat_completions_streaming RefParse.json_loads RefParse.py_str
    RefParse.format_seconds "OpenRouter" OPENROUTER (1 # 5) 0 "z-ai/glm-4.7"
    chat_test_response
  = Ok chat_test_result
  /\ content chat_test_result = "hi there"
  /\ content chat_test_result
     = PyStr.join (ChatSpec.stream_deltas RefParse.json_loads
                     (map snd (pending (line_iter chat_test_response)))).
Proof.
  assert (SSE._generate_openrouter_chat_completions_streaming RefParse.json_loads
            RefParse.py_str RefParse.format_seconds "OpenRouter" OPENROUTER (1 # 5) 0
            "z-ai/glm-4.7" chat_test_response = Ok chat_test_result) as Hrun
    by (vm_compute; reflexivity).
  split; [exact Hrun|]. split; [reflexivity|].
  exact (proj2 (proj2 (proj2 (ChatFacts.chat_stream_content RefParse.json_loads
           RefParse.py_str RefParse.format_seconds "OpenRouter" OPENROUTER)))
         (1 # 5) 0%Q "z-ai/glm-4.7" chat_test_response chat_test_result Hrun).
Defined.

(** ** The responses loop *)

Module ResponsesFacts.
Import SSE ResponsesSpec.

Lemma for_each_run_through {S : Type} (body : S -> string -> step S)
    (before after : list string) :
  forall st st1,
  run_through body st before = Some st1 ->
  for_each body st (before ++ after) = for_each body st1 after.
Proof.
  induction before as [|l before IH]; intros st st1; cbn [run_through app for_each].
  - now intros [= <-].
  - destruct (body st l); try discriminate. apply IH.
Qed.

Lemma content_item_text_fold (content : list pyobj) :
  forall parts,
  fold_left content_item_text content parts = parts ++ omap output_text_of content.
Proof.
  induction content as [|item content IH]; intros parts.
  - now rewrite app_nil_r.
  - cbn [fold_left].
    change (omap output_text_of (item :: content))
      with (match output_text_of item with
            | Some text => text :: omap output_text_of content
            | None => omap output_text_of content
            end).
    destruct item as [| | | | | |ci|]; cbn [content_item_text output_text_of]; try apply IH.
    destruct (Py.eq_str _ _); [|apply IH].
    destruct (Py.get ci "text"); try apply IH.
    rewrite IH, <- app_assoc. reflexivity.
Qed.

Lemma output_item_text_fold (output : list pyobj) :
  forall parts,
  fold_left output_item_text output parts
  = parts ++ flat_map
      (fun item =>
         match item with
         | PDict it =>
             match Py.get it "content" with
             | PList content => omap output_text_of content
             | _ => []
             end
         | _ => []
         end)
      output.
Proof.
  induction output as [|item output IH]; intros parts.
  - now rewrite app_nil_r.
  - cbn [fold_left flat_map].
    destruct item as [| | | | | |it|]; cbn [output_item_text]; try apply IH.
    destruct (Py.get it "content"); try apply IH.
    rewrite IH, content_item_text_fold, <- app_assoc. reflexivity.
Qed.

(** The extraction walks [output[].content[]] and joins the texts of the
    [output_text] entries. *)
Lemma extract_output_text_spec (response_payload : list (string * pyobj)) :
  _extract_output_text_from_responses_payload response_payload
  = PyStr.join (output_texts response_payload).
Proof.
  unfold _extract_output_text_from_responses_payload, output_texts.
  destruct (Py.get response_payload "output"); try reflexivity.
  now rewrite output_item_text_fold.
Qed.

(** Past the loop: the completed text unless it is empty, else the deltas. *)
Lemma responses_content_spec (st : responses_state) :
  responses_content st
  = match completed_response st with
    | Some r =>
        if PyStr.is_empty (PyStr.join (output_texts r))
        then PyStr.join (output_parts st)
        else PyStr.join (output_texts r)
    | None => PyStr.join (output_parts st)
    end.
Proof.
  unfold responses_content. destruct (completed_response st) as [r|]; [|reflexivity].
  now rewrite extract_output_text_spec.
Qed.

Section Responses.

Variable json_loads : string -> option pyobj.
Variable py_str : pyobj -> string.
Variable format_seconds : Q -> string.
Variable FRIENDLY_NAME : string.
Variable provider_type : ProviderType.

Let responses_line := responses_line json_loads py_str.
Let generate :=
  _generate_openrouter_responses_streaming
    json_loads py_str format_seconds FRIENDLY_NAME provider_type.

(** A [response.completed] event with a [response] object ends the loop
    and keeps that object; the deltas collected so far are untouched. *)
Lemma responses_event_completed (st : responses_state) (ev r : list (string * pyobj))
    (u : option usage_counts) :
  Py.truthy (Py.get ev "error") = false ->
  Py.get ev "type" = PStr "response.completed" ->
  Py.get ev "response" = PDict r ->
  _extract_usage_dict (Py.get r "usage") = Ok u ->
  exists st',
    responses_event py_str st (PDict ev) = Break st'
    /\ completed_response st' = Some r
    /\ output_parts st' = output_parts st.
Proof.
  intros Herr Htype Hresp Husage. unfold responses_event.
  rewrite Herr, Htype, Hresp, Husage. cbn. eexists. split; [reflexivity|]. split; reflexivity.
Qed.

Lemma responses_line_no_activity (st : responses_state) (line : string) :
  is_first_activity line = false -> responses_line st line = Continue st.
Proof.
  intros H. unfold responses_line, SSE.responses_line.
  now rewrite (ChatFacts.data_of_line_no_activity _ H).
Qed.

Lemma for_each_skips (pre : list (Q * string)) (lines : list string) (st : responses_state) :
  FirstActivitySpec.no_activity pre ->
  for_each responses_line st (map snd pre ++ lines) = for_each responses_line st lines.
Proof.
  induction 1 as [|[d l] pre Hl _ IH]; [reflexivity|].
  cbn [map app for_each snd]. simpl in Hl. now rewrite (responses_line_no_activity _ _ Hl).
Qed.

(** C2 (amended).  A [response.completed] event that carries a [response]
    object ends the stream; the content is the concatenation of the [text]
    fields of the [output[].content[]] entries of type [output_text] of
    that object whenever this concatenation is not empty, so it wins over
    the accumulated deltas; when it is empty the content is the
    concatenation of the accumulated [response.output_text.delta] strings. *)
Theorem responses_completed_content :
  (forall r, _extract_output_text_from_responses_payload r = PyStr.join (output_texts r))
  /\ (forall before after line data ev r u st,
      run_through responses_line responses_init before = Some st ->
      ChatSpec.data_line line data -> data <> "[DONE]" ->
      json_loads data = Some (PDict ev) ->
      Py.truthy (Py.get ev "error") = false ->
      Py.get ev "type" = PStr "response.completed" ->
      Py.get ev "response" = PDict r ->
      _extract_usage_dict (Py.get r "usage") = Ok u ->
      let authoritative := PyStr.join (output_texts r) in
      let expected :=
        if PyStr.is_empty authoritative then PyStr.join (output_parts st)
        else authoritative in
      (exists st',
          for_each responses_line responses_init (before ++ line :: after) = Ok st'
          /\ responses_content st' = expected)
      /\ (forall timeout_sec now model_name response resp,
          map snd (pending (line_iter response)) = before ++ line :: after ->
          generate timeout_sec now model_name response = Ok resp ->
          content resp = expected)).
Proof.
  split; [exact extract_output_text_spec|].
  intros before after line data ev r u st Hbefore Hdata Hnot Hload Herr Htype Hresp Husage
    authoritative expected.
  assert (exists st',
             for_each responses_line responses_init (before ++ line :: after) = Ok st'
             /\ responses_content st' = expected) as Hloop.
  { destruct (responses_event_completed st ev r u Herr Htype Hresp Husage)
      as (st' & Hev & Hdone & Hparts).
    exists st'. rewrite (for_each_run_through _ _ _ _ _ Hbefore). cbn [for_each].
    apply ChatFacts.data_of_line_data in Hdata.
    unfold responses_line at 1, SSE.responses_line. rewrite Hdata, Hload.
    apply String.eqb_neq in Hnot. rewrite Hnot, Hev. split; [reflexivity|].
    rewrite responses_content_spec, Hdone, Hparts. reflexivity. }
  split; [exact Hloop|].
  intros timeout_sec now model_name response resp Hlines.
  destruct Hloop as (st' & Hrun & Hcontent).
  unfold generate, _generate_openrouter_responses_streaming.
  destruct (400 <=? status_code response); [discriminate|].
  unfold _wait_for_openrouter_first_activity_line.
  destruct (wait_loop _ _ _ _ _ _) as [[first stream]|e] eqn:Hwait; [|discriminate].
  apply FirstActivityFacts.wait_loop_result in Hwait
    as (pre & d & rest & Hpending & Hno & _ & ->).
  cbn [mbind result_bind].
  destruct (for_each _ _ (_iter_with_first _ _)) as [st1|e] eqn:Hfor; [|discriminate].
  cbn [mbind result_bind]. intros [= <-]. cbn [content].
  rewrite <- Hlines, Hpending, map_app in Hrun. cbn [map snd] in Hrun.
  rewrite for_each_skips in Hrun by assumption.
  unfold _iter_with_first in Hfor. cbn [pending] in Hfor.
  fold responses_line in Hfor. rewrite Hfor in Hrun. now injection Hrun as ->.
Qed.

End Responses.
End ResponsesFacts.

Lemma responses_completed_content_witness :
  SSE._generate_openrouter_responses_streaming RefParse.json_loads RefParse.py_str
    RefParse.format_seconds "OpenRouter" OPENROUTER (1 # 5) 0 "o3-pro"
    responses_test_response
  = Ok responses_test_result
  /\ content responses_test_result = "hello".
Proof.
  assert (SSE._generate_openrouter_responses_streaming RefParse.json_loads
            RefParse.py_str RefParse.format_seconds "OpenRouter" OPENROUTER (1 # 5) 0
            "o3-pro" responses_test_response = Ok responses_test_result) as Hrun
    by (vm_compute; reflexivity).
  split; [exact Hrun|].
  refine (proj2 (proj2 (ResponsesFacts.responses_completed_content RefParse.json_loads
            RefParse.py_str RefParse.format_seconds "OpenRouter" OPENROUTER)
          [": OPENROUTER PROCESSING"; ""] [""] responses_test_line
          (PyStr.lstrip (PyStr.drop 5 responses_test_line))
          responses_test_event responses_test_payload None SSE.responses_init
          eq_refl _ _ _ eq_refl eq_refl eq_refl eq_refl)
          (1 # 5) 0%Q "o3-pro" responses_test_response responses_test_result eq_refl Hrun).
  - split; vm_compute; reflexivity.
  - vm_compute. discriminate.
  - vm_compute. reflexivity.
Defined.

Lemma responses_completed_empty_output_counterexample :
  content <$> SSE._generate_openrouter_responses_streaming RefParse.json_loads
                RefParse.py_str RefParse.format_seconds "OpenRouter" OPENROUTER (1 # 5) 0
                "o3-pro" responses_fallback_response
  = Ok "abc"
  /\ SSE._extract_output_text_from_responses_payload
       [("output", PList []); ("id", PStr "resp_2")] = ""
  /\ RefParse.json_loads
       (RefParse.quoted "{'type':'response.completed','response':{'id':'resp_2','output':[]}}")
     = Some (PDict [("response", PDict [("output", PList []); ("id", PStr "resp_2")]);
                    ("type", PStr "response.completed")]).
Proof. repeat split; vm_compute; reflexivity. Qed.

(** ** Error retryability *)

Module RetryFacts.
Import Retry RetrySpec.







(** What the SDK exception's response contributes. *)
Lemma sdk_fields_spec (response : sdk_response) :
  (forall d info, response = ResponseJson (PDict d) ->
     Py.lookup "error" d = Some (PDict info) ->
     sdk_fields response = (Py.get info "type", Py.get info "code"))
  /\ (response = NoResponse \/ response = ResponseJsonRaises ->
      sdk_fields response = (PNone, PNone)).
Proof.
  split.
  - intros d info -> H. cbn. now rewrite H.
  - now intros [-> | ->].
Qed.

Section Classifier.

Variable literal_eval : string -> parse_outcome.
Variable json_loads : string -> option pyobj.

Let parse_error_data := parse_error_data literal_eval json_loads.
Let _is_error_retryable := _is_error_retryable literal_eval json_loads.

(** The Python-literal parse comes first; the JSON parse sees the text
    with its apostrophes replaced, and only after a rejection. *)
Lemma parse_error_data_order (j : string) (v : pyobj) :
  parse_error_data j = Parsed v <->
  literal_eval j = Parsed v
  \/ (literal_eval j = Rejected
      /\ json_loads (PyStr.replace_char "'" double_quote j) = Some v).
Proof.
  unfold parse_error_data, Retry.parse_error_data.
  destruct (literal_eval j) as [v'| |e].
  - split; [intros [= <-]; now left | intros [[= <-] | [[=] _]]; reflexivity].
  - destruct (json_loads _) as [v'|].
    + split; [intros [= <-]; now right | intros [[=] | [_ [= <-]]]; reflexivity].
    + split; [discriminate | intros [[=] | [_ [=]]]].
  - split; [discriminate | intros [[=] | [[=] _]]].
Qed.


End Classifier.
End RetryFacts.



(** ** The retry runner and its call sites *)

Module RetryRunnerFacts.
Import RetryRunner RetryRunnerSpec.

Lemma attempt_counter_schedule (delays : list Z) (k : nat) :
  forall i, attempt_counter (schedule delays i k) = k.
Proof.
  induction k as [|k IH]; intros i; [reflexivity|].
  cbn [schedule]. destruct k as [|k]; [reflexivity|].
  specialize (IH (S i)). unfold attempt_counter in *.
  cbn [List.filter is_attempt length]. now rewrite IH.
Qed.

Lemma startswith_refl (s : string) : PyStr.startswith s s = true.
Proof.
  induction s as [|c s IH]; [reflexivity|].
  cbn [PyStr.startswith]. now rewrite Ascii.eqb_refl.
Qed.

Lemma contains_refl (s : string) : PyStr.contains s s = true.
Proof. apply PyStrFacts.contains_startswith, startswith_refl. Qed.

Section Runner.

Context {A : Type}.
Variable is_retryable : exn -> bool.
Variable operation : nat -> result A.

Lemma attempts_from_schedule (delays : list Z) (m : nat) :
  forall i later r,
  (forall j, (j < m)%nat ->
     exists e, operation (S (i + j)) = Raise e /\ is_retryable e = true) ->
  (forall j, (j < m)%nat -> is_Some (delays !! (i + j)%nat)) ->
  (m <= later)%nat ->
  operation (S (i + m)) = r ->
  final is_retryable later m r ->
  attempts_from is_retryable operation i later delays = (schedule delays i (S m), r).
Proof.
  induction m as [|m IH]; intros i later r Hfail Hdelays Hlater Hlast Hfinal.
  - rewrite Nat.add_0_r in Hlast. cbn [schedule].
    destruct later as [|later]; cbn [attempts_from]; rewrite Hlast.
    + now destruct r.
    + destruct r as [a|e]; [reflexivity|].
      destruct Hfinal as [Hfinal | ->]; [discriminate | reflexivity].
  - destruct later as [|later]; [lia|].
    destruct (Hfail 0%nat ltac:(lia)) as (e & He & Hretry).
    destruct (Hdelays 0%nat ltac:(lia)) as (delay & Hdelay).
    rewrite Nat.add_0_r in He, Hdelay.
    cbn [attempts_from schedule]. rewrite He, Hretry, Hdelay.
    rewrite (IH (S i) later r).
    + reflexivity.
    + intros j Hj. destruct (Hfail (S j) ltac:(lia)) as (e' & He' & Hr').
      exists e'. rewrite <- Nat.add_succ_comm in He'. auto.
    + intros j Hj. specialize (Hdelays (S j) ltac:(lia)).
      now rewrite <- Nat.add_succ_comm in Hdelays.
    + lia.
    + now rewrite <- Nat.add_succ_comm in Hlast.
    + destruct r; [exact I|]. cbn in *. destruct Hfinal as [H|H]; [left; lia | now right].
Qed.

Lemma attempts_from_first (delays : list Z) (i later : nat) :
  exists events, (attempts_from is_retryable operation i later delays).1
                 = Attempt (S i) :: events.
Proof.
  destruct later as [|later]; cbn [attempts_from];
    destruct (operation (S i)) as [a|e]; try (now eexists).
  destruct (is_retryable e); [|now eexists].
  destruct (delays !! i); [|now eexists].
  destruct (attempts_from _ _ _ _ _). now eexists.
Qed.

End Runner.

Lemma four_delays (m : nat) (j : nat) :
  (m < 4)%nat -> (j < m)%nat -> is_Some ([1; 3; 5; 8] !! (0 + j)%nat).
Proof.
  intros Hm Hj. destruct j as [|[|[|j]]]; try (now eexists). lia.
Qed.

(** The runner as both call sites invoke it. *)
Lemma run_four_attempts {A : Type} (is_retryable : exn -> bool)
    (operation : nat -> result A) (m : nat) (r : result A) :
  (m < 4)%nat ->
  (forall j, (j < m)%nat ->
     exists e, operation (S j) = Raise e /\ is_retryable e = true) ->
  operation (S m) = r ->
  final is_retryable 3 m r ->
  _run_with_retries is_retryable operation 4 [1; 3; 5; 8]
  = (schedule [1; 3; 5; 8] 0 (S m), r).
Proof.
  intros Hm Hfail Hlast Hfinal. unfold _run_with_retries.
  apply attempts_from_schedule.
  - exact Hfail.
  - intros j Hj. now apply (four_delays m).
  - lia.
  - exact Hlast.
  - exact Hfinal.
Qed.

Lemma run_starts_with_attempt_1 {A : Type} (is_retryable : exn -> bool)
    (operation : nat -> result A) :
  exists events r,
    _run_with_retries is_retryable operation 4 [1; 3; 5; 8] = (Attempt 1 :: events, r).
Proof.
  unfold _run_with_retries.
  destruct (attempts_from_first is_retryable operation [1; 3; 5; 8] 0 3) as (events & H).
  destruct (attempts_from _ _ _ _ _) as [evs r]. cbn [fst] in H. subst evs.
  now exists events, r.
Qed.

Lemma max_succ_1 (m : nat) : Nat.max (S m) 1 = S m.
Proof. lia. Qed.

(** C5 (amended).  Both call sites allow 4 attempts and pass the 4 delays
    [1, 3, 5, 8], one more than the 3 sleeps that 4 attempts can need, so
    the last delay is never slept.  Attempt 1 runs at once; after a
    retryable failure of attempt [i+1] the runner sleeps [delays[i]] before
    attempt [i+2]; a failure that is not retryable ends the run at once;
    and every failure that leaves a call site is one [RuntimeError] whose
    message names the number of attempts made and the last underlying
    error. *)
Theorem retry_call_sites_spec (FRIENDLY_NAME resolved_model : string) :
  length generate_content.retry_delays = generate_content.max_retries
  /\ length _generate_with_responses_endpoint.retry_delays
     = _generate_with_responses_endpoint.max_retries
  /\ schedule generate_content.retry_delays 0 generate_content.max_retries
     = [Attempt 1; Sleep 1; Attempt 2; Sleep 3; Attempt 3; Sleep 5; Attempt 4]
  /\ retry_contract generate_content.max_retries generate_content.retry_delays
       (generate_content.run FRIENDLY_NAME resolved_model)
  /\ retry_contract _generate_with_responses_endpoint.max_retries
       _generate_with_responses_endpoint.retry_delays
       _generate_with_responses_endpoint.run.
Proof.
  split; [reflexivity|]. split; [reflexivity|]. split; [reflexivity|].
  unfold generate_content.max_retries, generate_content.retry_delays,
    _generate_with_responses_endpoint.max_retries,
    _generate_with_responses_endpoint.retry_delays.
  split; intros is_retryable _attempt; split.
  - unfold generate_content.run, generate_content.max_retries,
      generate_content.retry_delays.
    destruct (run_starts_with_attempt_1 is_retryable _attempt) as (events & r & ->).
    exists events. now destruct r.
  - intros m Hm Hfail.
    unfold generate_content.run, generate_content.max_retries,
      generate_content.retry_delays. split.
    + intros response Hok.
      now rewrite (run_four_attempts is_retryable _attempt m (Ok response)).
    + intros e Hraise Hfinal.
      rewrite (run_four_attempts is_retryable _attempt m (Raise e)); auto.
      * eexists. split; [reflexivity|].
        rewrite attempt_counter_schedule, max_succ_1. split.
        -- do 4 apply PyStrFacts.contains_append_r.
           apply PyStrFacts.contains_startswith, PyStrFacts.startswith_append.
        -- do 6 apply PyStrFacts.contains_append_r. apply contains_refl.
      * cbn. destruct Hfinal as [H|H]; [left; lia | now right].
  - unfold _generate_with_responses_endpoint.run,
      _generate_with_responses_endpoint.max_retries,
      _generate_with_responses_endpoint.retry_delays.
    destruct (run_starts_with_attempt_1 is_retryable _attempt) as (events & r & ->).
    exists events. now destruct r.
  - intros m Hm Hfail.
    unfold _generate_with_responses_endpoint.run,
      _generate_with_responses_endpoint.max_retries,
      _generate_with_responses_endpoint.retry_delays. split.
    + intros response Hok.
      now rewrite (run_four_attempts is_retryable _attempt m (Ok response)).
    + intros e Hraise Hfinal.
      rewrite (run_four_attempts is_retryable _attempt m (Raise e)); auto.
      * eexists. split; [reflexivity|].
        rewrite attempt_counter_schedule, max_succ_1. split.
        -- do 1 apply PyStrFacts.contains_append_r.
           apply PyStrFacts.contains_startswith, PyStrFacts.startswith_append.
        -- do 3 apply PyStrFacts.contains_append_r. apply contains_refl.
      * cbn. destruct Hfinal as [H|H]; [left; lia | now right].
Qed.

End RetryRunnerFacts.

Lemma retry_call_sites_witness :
  generate_content.run "OpenRouter" "z-ai/glm-4.7" (fun _ => true) flaky_attempt
  = ([Attempt 1; Sleep 1; Attempt 2; Sleep 3; Attempt 3], Ok chat_test_result).
Proof.
  refine (proj1 (proj2 (proj1 (proj2 (proj2 (proj2
            (RetryRunnerFacts.retry_call_sites_spec "OpenRouter" "z-ai/glm-4.7"))))
            (fun _ => true) flaky_attempt) 2%nat _ _) chat_test_result eq_refl).
  - unfold generate_content.max_retries. lia.
  - intros j Hj. exists (RuntimeError "503 service unavailable").
    destruct j as [|[|j]]; [split; reflexivity | split; reflexivity | lia].
Defined.

Example retry_exhausted_example :
  generate_content.run "OpenRouter" "z-ai/glm-4.7" (fun _ => true) failing_attempt
  = ([Attempt 1; Sleep 1; Attempt 2; Sleep 3; Attempt 3; Sleep 5; Attempt 4],
     Raise (RuntimeError
       "OpenRouter API error for model z-ai/glm-4.7 after 4 attempts: connection reset")).
Proof. vm_compute. reflexivity. Qed.

Example retry_fatal_example :
  generate_content.run "OpenRouter" "z-ai/glm-4.7" (fun _ => false) failing_attempt
  = ([Attempt 1],
     Raise (RuntimeError
       "OpenRouter API error for model z-ai/glm-4.7 after 1 attempt: connection reset")).
Proof. vm_compute. reflexivity. Qed.

(** Neither call site passes [max_attempts - 1] delays. *)
Lemma retry_delays_length_counterexample :
  length generate_content.retry_delays <> (generate_content.max_retries - 1)%nat
  /\ length _generate_with_responses_endpoint.retry_delays
     <> (_generate_with_responses_endpoint.max_retries - 1)%nat.
Proof. split; discriminate. Qed.

(** ** The alias-aware allow-list *)

Module AllowListFacts.
Import AllowList AllowListSpec.

Lemma str_le_total : Total str_le.
Proof. intros a b. apply String.leb_total. Qed.

#[global] Existing Instance str_le_total.

(** [sorted] sorts: an ordered rearrangement of the set's elements. *)
Lemma sorted_spec (s : gset string) :
  Sorted str_le (sorted s) /\ sorted s ≡ₚ elements s.
Proof.
  split; [apply Sorted_merge_sort, _ | apply merge_sort_Permutation].
Qed.

Section Ensure.

Variable _resolve_model_name : string -> option string.
Variable list_of_set : gset string -> list string.
Variable repr_list : list string -> string.

Let scan_entries := scan_entries _resolve_model_name.
Let _ensure_model_allowed :=
  _ensure_model_allowed _resolve_model_name list_of_set repr_list.

Lemma resolves_to_functional (entry a b : string) :
  resolves_to _resolve_model_name entry a -> resolves_to _resolve_model_name entry b -> a = b.
Proof. intros (r & Hr & _ & <-) (r' & Hr' & _ & <-). congruence. Qed.


Lemma cache_sound_insert (cache : gmap string string) (entry v : string) :
  cache_sound _resolve_model_name cache -> resolves_to _resolve_model_name entry v -> cache_sound _resolve_model_name (<[entry := v]> cache).
Proof.
  intros Hs Hr e w. rewrite lookup_insert. case_decide as Heq.
  - intros [= <-]. now subst.
  - apply Hs.
Qed.

Lemma scan_entries_spec (canonical : string) (entries : list string) :
  forall cache,
  cache_sound _resolve_model_name cache ->
  cache_sound _resolve_model_name (scan_entries canonical entries cache).2
  /\ ((scan_entries canonical entries cache).1 = true <->
      exists entry, entry ∈ entries /\ resolves_to _resolve_model_name entry canonical).
Proof.
  induction entries as [|e entries IH]; intros cache Hs.
  - split; [exact Hs|]. split; [discriminate|]. intros (entry & Hin & _).
    now apply elem_of_nil in Hin.
  - cbn [scan_entries AllowList.scan_entries]. fold scan_entries.
    assert (forall cache',
               cache_sound _resolve_model_name cache' -> ~ resolves_to _resolve_model_name e canonical ->
               cache_sound _resolve_model_name (scan_entries canonical entries cache').2
               /\ ((scan_entries canonical entries cache').1 = true <->
                   exists entry, entry ∈ e :: entries /\ resolves_to _resolve_model_name entry canonical))
      as Hnext.
    { intros cache' Hs' Hnot. destruct (IH cache' Hs') as [Hsound Hiff].
      split; [exact Hsound|]. rewrite Hiff. split.
      - intros (entry & Hin & Hr). exists entry. split; [now right | exact Hr].
      - intros (entry & Hin & Hr). apply elem_of_cons in Hin as [-> | Hin];
          [contradiction | now exists entry]. }
    assert (forall cache',
               cache_sound _resolve_model_name cache' -> resolves_to _resolve_model_name e canonical ->
               cache_sound _resolve_model_name cache'
               /\ (true = true <->
                   exists entry, entry ∈ e :: entries /\ resolves_to _resolve_model_name entry canonical))
      as Hhit.
    { intros cache' Hs' Hr. split; [exact Hs'|]. split; [|reflexivity].
      intros _. exists e. split; [now left | exact Hr]. }
    destruct (cache !! e) as [v|] eqn:Hcache.
    + pose proof (Hs e v Hcache) as Hv.
      destruct (String.eqb_spec v canonical) as [-> | Hne].
      * now apply Hhit.
      * apply Hnext; [exact Hs|]. intros Hr. apply Hne.
        exact (resolves_to_functional _ _ _ Hv Hr).
    + destruct (_resolve_model_name e) as [resolved|] eqn:Hres.
      * destruct (PyStr.is_empty resolved) eqn:Hempty.
        { apply Hnext; [exact Hs|]. intros (r & Hr & Hnonempty & _).
          apply PyStrFacts.is_empty_true in Hempty. congruence. }
        assert (resolves_to _resolve_model_name e (PyStr.lower resolved)) as Hr.
        { exists resolved. repeat split; auto. intros ->. discriminate. }
        destruct (String.eqb_spec (PyStr.lower resolved) canonical) as [<- | Hne].
        -- apply Hhit; [now apply cache_sound_insert | exact Hr].
        -- apply Hnext; [now apply cache_sound_insert|]. intros Hr'. apply Hne.
           exact (resolves_to_functional _ _ _ Hr Hr').
      * apply Hnext; [exact Hs|]. intros (r & Hr & _). congruence.
Qed.


(** Without an allow-list every model passes and nothing changes. *)
Lemma ensure_model_allowed_unrestricted (canonical_name requested_name : string)
    (cache : gmap string string) :
  _ensure_model_allowed (Ok tt) canonical_name requested_name
    (mk_restriction None cache)
  = (Ok tt, mk_restriction None cache).
Proof. reflexivity. Qed.

(** The alias path keeps the cache sound when the canonical name resolves
    to itself, as a resolver's own output does. *)
Lemma ensure_model_allowed_sound
    (canonical_name requested_name : string)
    (allowed : gset string) (cache : gmap string string) :
  cache_sound _resolve_model_name cache ->
  resolves_to _resolve_model_name (PyStr.lower canonical_name) (PyStr.lower canonical_name) ->
  cache_sound _resolve_model_name
    (_allowed_alias_cache
       (_ensure_model_allowed (Ok tt) canonical_name requested_name
          (mk_restriction (Some allowed) cache)).2).
Proof.
  intros Hs Hself. unfold _ensure_model_allowed, AllowList._ensure_model_allowed.
  cbn [allowed_models _allowed_alias_cache].
  destruct (_ && _); [|exact Hs].
  destruct (scan_entries_spec (PyStr.lower canonical_name) (list_of_set allowed) cache Hs)
    as [Hsound _].
  fold scan_entries.
  destruct (scan_entries _ _ _) as [[] cache']; cbn [fst snd _allowed_alias_cache] in *.
  - now apply cache_sound_insert.
  - exact Hsound.
Qed.

End Ensure.
End AllowListFacts.


Example ensure_model_allowed_rejects :
  (AllowList._ensure_model_allowed alias_resolver elements plain_repr_list (Ok tt)
     "openai/gpt-5" "GPT5" (mk_restriction (Some {["sonnet"; "o3"]}) ∅)).1
  = Raise (ValueError
      "Model 'GPT5' is not allowed by restriction policy. Allowed models: ['o3', 'sonnet']").
Proof. vm_compute. reflexivity. Qed.

(** ** The catalogue cache and capability lookup *)

Module CatalogFacts.
Import Catalog CatalogSpec.








(** When the dynamic lookup comes back empty: the catalogue is unavailable,
    or it has neither the name nor the name without its last [:suffix]. *)
Lemma lookup_dynamic_model_info_none network now model_name st :
  (_lookup_dynamic_model_info network now model_name st).1 = None <->
  (exists e, (_get_models_api_cache network now st).1 = Raise e)
  \/ (exists index,
        (_get_models_api_cache network now st).1 = Ok index
        /\ index !! model_name = None
        /\ (PyStr.contains ":" model_name = true ->
            index !! PyStr.rsplit1_head ":" model_name = None)).
Proof.
  unfold _lookup_dynamic_model_info.
  destruct (_get_models_api_cache network now st) as [[index|e] st']; cbn [fst].
  - destruct (index !! model_name) as [hit|] eqn:Hhit; cbn [fst].
    + split; [discriminate|].
      intros [(e & [=]) | (index' & [= <-] & Hnone & _)]. congruence.
    + destruct (PyStr.contains ":" model_name); cbn [fst].
      * split.
        -- intros H. right. exists index. auto.
        -- intros [(e & [=]) | (index' & [= <-] & _ & H)]. now apply H.
      * split; [|reflexivity]. intros _. right. exists index.
        repeat split; auto. discriminate.
  - split; [|reflexivity]. intros _. left. now exists e.
Qed.

(** A record built from the catalogue is not marked generic. *)
Lemma build_capabilities_not_generic model_name model_info capabilities :
  _build_capabilities_from_models_api model_name model_info = Ok capabilities ->
  _is_generic capabilities = false /\ cap_model_name capabilities = model_name.
Proof.
  unfold _build_capabilities_from_models_api.
  destruct (Py.int _); [|discriminate]. cbn [mbind result_bind].
  intros [= <-]. split; reflexivity.
Qed.

Section Lookup.

Variable registry : string -> option ModelCapabilities.

(** C8.  Capability lookup returns the first hit of: (1) the static
    registry, which ends the lookup without touching the catalogue; (2) for
    a name of the [vendor/model] shape only, the remote catalogue, whose
    record is turned into capabilities; (3) when the catalogue misses or is
    unavailable, the generic record: context window 32,768, at most 32,768
    output tokens, no function calling, no images, marked generic;
    (4) for a name without provider prefix that the registry does not know,
    nothing, and the catalogue is not consulted. *)
Theorem lookup_capabilities_order (network : result pyobj) (now : Q)
    (canonical_name : string) (st : catalog_state) :
  let run := _lookup_capabilities registry network now canonical_name st in
  let dynamic := _lookup_dynamic_model_info network now canonical_name st in
  (forall capabilities,
      registry canonical_name = Some capabilities ->
      run = (Ok (Some capabilities), st))
  /\ (registry canonical_name = None ->
      has_provider_prefix canonical_name = true ->
      (forall model_info,
          dynamic.1 = Some model_info ->
          run = (Some <$> _build_capabilities_from_models_api canonical_name model_info,
                 dynamic.2))
      /\ (dynamic.1 = None ->
          run = (Ok (Some (generic_capabilities canonical_name)), dynamic.2)))
  /\ (dynamic.1 = None <->
      (exists e, (_get_models_api_cache network now st).1 = Raise e)
      \/ (exists index,
            (_get_models_api_cache network now st).1 = Ok index
            /\ index !! canonical_name = None
            /\ (PyStr.contains ":" canonical_name = true ->
                index !! PyStr.rsplit1_head ":" canonical_name = None)))
  /\ (context_window (generic_capabilities canonical_name) = 32768
      /\ max_output_tokens (generic_capabilities canonical_name) = 32768
      /\ supports_function_calling (generic_capabilities canonical_name) = false
      /\ supports_images (generic_capabilities canonical_name) = false
      /\ _is_generic (generic_capabilities canonical_name) = true)
  /\ (registry canonical_name = None ->
      has_provider_prefix canonical_name = false ->
      run = (Ok None, st)).
Proof.
  intros run dynamic. subst run dynamic. unfold _lookup_capabilities.
  split; [|split; [|split; [|split]]].
  - now intros capabilities ->.
  - intros -> ->.
    destruct (_lookup_dynamic_model_info network now canonical_name st) as [[info|] st'];
      cbn [fst snd].
    + split; [now intros model_info [= <-] | discriminate].
    + split; [now intros model_info [=] | reflexivity].
  - apply lookup_dynamic_model_info_none.
  - repeat split.
  - now intros -> ->.
Qed.

End Lookup.
End CatalogFacts.


Lemma lookup_capabilities_order_witness :
  Catalog._lookup_capabilities no_registry (Raise (RuntimeError "boom")) 1000
    "acme/unknown-model" Catalog.empty_state
  = (Ok (Some (Catalog.generic_capabilities "acme/unknown-model")), after_failed_fetch).
Proof.
  exact (proj2 (proj1 (proj2 (CatalogFacts.lookup_capabilities_order no_registry
           (Raise (RuntimeError "boom")) 1000 "acme/unknown-model" Catalog.empty_state))
         eq_refl eq_refl) eq_refl).
Defined.

(** The test's two lookups: capabilities come from the catalogue, and the
    second lookup, an hour later, fetches nothing. *)
Example lookup_capabilities_from_catalog :
  let first := Catalog._lookup_capabilities no_registry (Ok acme_catalog) 1000
                 "acme/unknown-model" Catalog.empty_state in
  let second := Catalog._lookup_capabilities no_registry (Raise (RuntimeError "offline"))
                  4600 "acme/unknown-model" first.2 in
  found context_window first.1 = Some 100000
  /\ found max_output_tokens first.1 = Some 8192
  /\ found supports_function_calling first.1 = Some true
  /\ found supports_json_mode first.1 = Some true
  /\ found supports_temperature first.1 = Some true
  /\ found _is_generic first.1 = Some false
  /\ fetch_calls first.2 = 1%nat
  /\ found context_window second.1 = Some 100000
  /\ fetch_calls second.2 = 1%nat.
Proof. vm_compute. repeat split; reflexivity. Qed.

(** A name without provider prefix that the registry does not know. *)
Example lookup_capabilities_no_prefix :
  Catalog._lookup_capabilities no_registry (Ok acme_catalog) 1000 "mystery-model"
    Catalog.empty_state
  = (Ok None, Catalog.empty_state).
Proof. reflexivity. Qed.
